(** * Heizungs-Wirtschaftlichkeit: Oel / Gas vs. Waermepumpe + PV + Speicher

    Shallow embedding of the arithmetic core of [app.py]: the helper
    functions of the section "Hilfsfunktionen" and the straight-line block
    "Berechnungen Basisszenario" that calls them, followed by the block
    "Sensitivitaeten", the four formatting functions and the percentage
    of the coverage slider.

    Number model.  The program computes on Python floats (and a few ints
    coming from sliders).  The main development idealises them as exact
    rationals [Q]: every literal of the source is the rational it denotes
    ([0.85] is 85/100), [+ - *] are exact, [/] raises [ZeroDivisionError]
    on a zero divisor (modelled by [None]) and [max] is Python's builtin.
    Equality of results is therefore [Qeq] ([==]).

    Rounding is treated on top of that model in three ways.  Statements
    about order, sign and the end points of ranges are phrased so that
    each step of their proof is a step the rounded operations take as
    well (rounding to nearest is monotone and exact on the values
    involved); where a quantity could leave the range of a double the
    statement bounds it by [klein] and [gross].  Statements that compare
    two algebraically equal expressions, or the cost at two coverages or
    two demands, are made in module [Gerundet], where every operation of
    the source is followed by a rounding function that is only assumed to
    satisfy the standard error bound ([standard_model]); [rnd64],
    rounding to the nearest double, is proved to satisfy it.  Module
    [Binary64] transliterates the functions over IEEE-754 doubles; the
    scenarios of the documentation and the inputs on which rounding shows
    are evaluated there the way the interpreter does, and [Gerundet] with
    [rnd64] is checked against it on those inputs. *)

From Stdlib Require Import QArith Qminmax Qpower Lqa Lia.
From Stdlib Require Import PrimFloat FloatOps SpecFloat Uint63.
From Stdlib Require Import Bool Arith ZArith Ascii String DecimalString Qabs Qround List.

Set Warnings "-inexact-float".

Local Open Scope Q_scope.

(** ** Python primitives *)

(** [max(a, b)] of the builtin: the first argument is kept unless the
    second one is strictly greater. *)
Definition py_max (a b : Q) : Q :=
  if Qlt_le_dec a b then b else a.

(** [a / b] on floats: [ZeroDivisionError] when the divisor is zero. *)
Definition py_div (a b : Q) : option Q :=
  if Qeq_bool b 0 then None else Some (a / b).

(** Error propagation of the straight-line script: the first exception
    aborts the run. *)
Definition bind {A B : Type} (m : option A) (k : A -> option B) : option B :=
  match m with
  | Some a => k a
  | None => None
  end.

Notation "x <- m ;; k" := (bind m (fun x => k))
  (at level 61, m at next level, right associativity).

(** ** Default-Annahmen *)

Module Defaults.
Record t : Set := mk {
  spez_ertrag_pv : Q;
  heizwert_oel_kwh_l : Q;
  heizwert_gas_kwh_m3 : Q;
  eta_oel : Q;
  eta_gas : Q;
  jaz_wp : Q;
  pv_deckung_wp : Q;
  strompreis_wp : Q;
  lcoe_pv : Q;
  preis_oel_eur_l : Q;
  preis_gas_eur_m3 : Q;
  co2_oel_kg_l : Q;
  co2_gas_kg_m3 : Q;
  co2_strom_kg_kwh : Q;
  spez_heizwaermebedarf : Q
}.
End Defaults.

Definition DEFAULTS : Defaults.t := {|
  Defaults.spez_ertrag_pv := 950;
  Defaults.heizwert_oel_kwh_l := 10.0;
  Defaults.heizwert_gas_kwh_m3 := 10.0;
  Defaults.eta_oel := 0.85;
  Defaults.eta_gas := 0.95;
  Defaults.jaz_wp := 3.2;
  Defaults.pv_deckung_wp := 0.20;
  Defaults.strompreis_wp := 0.26;
  Defaults.lcoe_pv := 0.12;
  Defaults.preis_oel_eur_l := 1.05;
  Defaults.preis_gas_eur_m3 := 1.20;
  Defaults.co2_oel_kg_l := 2.65;
  Defaults.co2_gas_kg_m3 := 2.00;
  Defaults.co2_strom_kg_kwh := 0.35;
  Defaults.spez_heizwaermebedarf := 110
|}.

(** ** Hilfsfunktionen *)

Definition jahres_heizwaermebedarf (kwh_pro_m2a wohnflaeche_m2 : Q) : Q :=
  kwh_pro_m2a * wohnflaeche_m2.

Definition oel_verbrauch_l (q_h_kwh heizwert_kwh_l eta : Q) : option Q :=
  py_div q_h_kwh (eta * heizwert_kwh_l).

Definition gas_verbrauch_m3 (q_h_kwh heizwert_kwh_m3 eta : Q) : option Q :=
  py_div q_h_kwh (eta * heizwert_kwh_m3).

Definition wp_strombedarf_kwh (q_h_kwh jaz : Q) : option Q :=
  py_div q_h_kwh jaz.

Definition pv_jahreserzeugung_kwh (pv_kwp spez_ertrag : Q) : Q :=
  pv_kwp * spez_ertrag.

Definition kosten_wp (strombedarf_wp pv_deck strompreis lcoe_pv : Q) : Q :=
  let pv_kwh := strombedarf_wp * pv_deck in
  let netz_kwh := py_max (strombedarf_wp - pv_kwh) 0 in
  pv_kwh * lcoe_pv + netz_kwh * strompreis.

Definition co2_wp (strombedarf_wp pv_deck co2_strom : Q) : Q :=
  let netz_kwh := py_max (strombedarf_wp * (1 - pv_deck)) 0 in
  netz_kwh * co2_strom.

(** The local variables of [kosten_wp] and [co2_wp], named so that
    statements can speak about the solar-covered and grid-covered
    quantities separately. *)
Definition kosten_wp_pv_kwh (strombedarf_wp pv_deck : Q) : Q :=
  strombedarf_wp * pv_deck.

Definition kosten_wp_netz_kwh (strombedarf_wp pv_deck : Q) : Q :=
  py_max (strombedarf_wp - kosten_wp_pv_kwh strombedarf_wp pv_deck) 0.

Definition co2_wp_netz_kwh (strombedarf_wp pv_deck : Q) : Q :=
  py_max (strombedarf_wp * (1 - pv_deck)) 0.

(** ** Berechnungen Basisszenario

    Each assignment of the script is the function of the variables it
    reads; [basisszenario] runs them in the order of the script. *)

Definition oel_kosten (oel_l preis_oel : Q) : Q := oel_l * preis_oel.
Definition oel_co2 (oel_l co2_oel_kg_l : Q) : Q := oel_l * co2_oel_kg_l.
Definition gas_kosten (gas_m3 preis_gas : Q) : Q := gas_m3 * preis_gas.
Definition gas_co2 (gas_m3 co2_gas_kg_m3 : Q) : Q := gas_m3 * co2_gas_kg_m3.

Definition vollbenutzungsstunden_wp (q_h wp_kw : Q) : option Q :=
  py_div q_h (py_max wp_kw 0.001).

(** The values read from the sidebar widgets that the block uses (the
    project data and [speicher_kwh] are only displayed and exported).
    [pv_deckung_wp] is the slider's percentage already divided by 100.0. *)
Record Eingaben : Set := mkEingaben {
  wohnflaeche : Q;
  pv_kwp : Q;
  spez_ertrag : Q;
  wp_kw : Q;
  jaz_wp : Q;
  pv_deckung_wp : Q;
  preis_oel : Q;
  preis_gas : Q;
  strompreis_wp : Q;
  lcoe_pv : Q;
  co2_strom : Q;
  spez_bedarf : Q;
  eta_oel : Q;
  eta_gas : Q
}.

(** The variables of the block, as they go into the table and the export.
    Fields whose script name is also the name of a function above carry
    the prefix [res_]. *)
Record Ergebnis : Set := mkErgebnis {
  q_h : Q;
  pv_kwh : Q;
  oel_l : Q;
  res_oel_kosten : Q;
  res_oel_co2 : Q;
  gas_m3 : Q;
  res_gas_kosten : Q;
  res_gas_co2 : Q;
  wp_kwh : Q;
  wp_kosten : Q;
  wp_co2 : Q;
  res_vollbenutzungsstunden_wp : Q
}.

Definition basisszenario (D : Defaults.t) (e : Eingaben) : option Ergebnis :=
  let q_h := jahres_heizwaermebedarf (spez_bedarf e) (wohnflaeche e) in
  let pv_kwh := pv_jahreserzeugung_kwh (pv_kwp e) (spez_ertrag e) in
  oel_l <- oel_verbrauch_l q_h (Defaults.heizwert_oel_kwh_l D) (eta_oel e) ;;
  gas_m3 <- gas_verbrauch_m3 q_h (Defaults.heizwert_gas_kwh_m3 D) (eta_gas e) ;;
  wp_kwh <- wp_strombedarf_kwh q_h (jaz_wp e) ;;
  vbh <- vollbenutzungsstunden_wp q_h (wp_kw e) ;;
  Some {|
    q_h := q_h;
    pv_kwh := pv_kwh;
    oel_l := oel_l;
    res_oel_kosten := oel_kosten oel_l (preis_oel e);
    res_oel_co2 := oel_co2 oel_l (Defaults.co2_oel_kg_l D);
    gas_m3 := gas_m3;
    res_gas_kosten := gas_kosten gas_m3 (preis_gas e);
    res_gas_co2 := gas_co2 gas_m3 (Defaults.co2_gas_kg_m3 D);
    wp_kwh := wp_kwh;
    wp_kosten := kosten_wp wp_kwh (pv_deckung_wp e) (strompreis_wp e) (lcoe_pv e);
    wp_co2 := co2_wp wp_kwh (pv_deckung_wp e) (co2_strom e);
    res_vollbenutzungsstunden_wp := vbh
  |}.

(** The sidebar as it comes up: every widget at its [value=]. *)
Definition eingaben_vorgabe : Eingaben := {|
  wohnflaeche := 350.9;
  pv_kwp := 24.5;
  spez_ertrag := Defaults.spez_ertrag_pv DEFAULTS;
  wp_kw := 13.0;
  jaz_wp := Defaults.jaz_wp DEFAULTS;
  pv_deckung_wp := 20 / 100.0;
  preis_oel := Defaults.preis_oel_eur_l DEFAULTS;
  preis_gas := Defaults.preis_gas_eur_m3 DEFAULTS;
  strompreis_wp := Defaults.strompreis_wp DEFAULTS;
  lcoe_pv := Defaults.lcoe_pv DEFAULTS;
  co2_strom := Defaults.co2_strom_kg_kwh DEFAULTS;
  spez_bedarf := Defaults.spez_heizwaermebedarf DEFAULTS;
  eta_oel := Defaults.eta_oel DEFAULTS;
  eta_gas := Defaults.eta_gas DEFAULTS
|}.

(** The bounds the widgets enforce ([min_value], [max_value], slider
    ranges). *)
Definition im_wertebereich (e : Eingaben) : Prop :=
  1 <= wohnflaeche e /\
  0 <= pv_kwp e /\
  500 <= spez_ertrag e <= 1300 /\
  1 <= wp_kw e /\
  2 <= jaz_wp e <= 5 /\
  0 <= pv_deckung_wp e <= 0.6 /\
  0 <= preis_oel e /\
  0 <= preis_gas e /\
  0 <= strompreis_wp e /\
  0 <= lcoe_pv e /\
  0 <= co2_strom e /\
  60 <= spez_bedarf e <= 220 /\
  0.65 <= eta_oel e <= 0.95 /\
  0.80 <= eta_gas e <= 1.00.

(** ** The specification's wording of the heat-pump cost

    [HeatPumpCost] as section 4.1 of the specification states it: the
    grid-covered remainder is [max(demand * (1 - coverage), 0)]. *)
Definition spec_solarPortion (electricityDemand solarCoverageFraction : Q) : Q :=
  electricityDemand * solarCoverageFraction.

Definition spec_gridPortion (electricityDemand solarCoverageFraction : Q) : Q :=
  Qmax (electricityDemand * (1 - solarCoverageFraction)) 0.

Definition spec_HeatPumpCost
    (electricityDemand solarCoverageFraction gridPrice solarLevelizedCost : Q) : Q :=
  spec_solarPortion electricityDemand solarCoverageFraction * solarLevelizedCost
  + spec_gridPortion electricityDemand solarCoverageFraction * gridPrice.

(** ** The same functions on IEEE-754 doubles

    A transliteration over Rocq's primitive binary64 floats (round to
    nearest even, as CPython's [float]).  [max(x, 0)] compares with the
    int [0], which is the comparison with [0.0]; [ltb] is false on NaN, so
    a NaN first argument is kept, as the builtin does. *)
Module Binary64.
Local Open Scope float_scope.

Definition py_max (a b : float) : float :=
  if PrimFloat.ltb a b then b else a.

Definition py_div (a b : float) : option float :=
  if PrimFloat.eqb b 0 then None else Some (a / b).

Definition jahres_heizwaermebedarf (kwh_pro_m2a wohnflaeche_m2 : float) : float :=
  kwh_pro_m2a * wohnflaeche_m2.

Definition oel_verbrauch_l (q_h_kwh heizwert_kwh_l eta : float) : option float :=
  py_div q_h_kwh (eta * heizwert_kwh_l).

Definition gas_verbrauch_m3 (q_h_kwh heizwert_kwh_m3 eta : float) : option float :=
  py_div q_h_kwh (eta * heizwert_kwh_m3).

Definition wp_strombedarf_kwh (q_h_kwh jaz : float) : option float :=
  py_div q_h_kwh jaz.

Definition kosten_wp (strombedarf_wp pv_deck strompreis lcoe_pv : float) : float :=
  let pv_kwh := strombedarf_wp * pv_deck in
  let netz_kwh := py_max (strombedarf_wp - pv_kwh) 0 in
  pv_kwh * lcoe_pv + netz_kwh * strompreis.

Definition co2_wp (strombedarf_wp pv_deck co2_strom : float) : float :=
  let netz_kwh := py_max (strombedarf_wp * (1 - pv_deck)) 0 in
  netz_kwh * co2_strom.

Definition vollbenutzungsstunden_wp (q_h wp_kw : float) : option float :=
  py_div q_h (py_max wp_kw 0.001).

(** [|x - y| <= tol], as a boolean on doubles. *)
Definition nahe (x y tol : float) : bool :=
  PrimFloat.leb (PrimFloat.abs (x - y)) tol.
End Binary64.

(** ** Sensitivitaeten

    The block below the charts: the heat demand is recomputed from the
    slider [sens_bedarf] and the heat-pump demand from the slider
    [sens_jaz]; everything else is read from the sidebar. *)
Record Sensitivitaet : Set := mkSensitivitaet {
  q_h_sens : Q;
  oel_l_sens : Q;
  gas_m3_sens : Q;
  wp_kwh_sens : Q;
  wp_kosten_sens : Q;
  oel_kosten_sens : Q;
  gas_kosten_sens : Q
}.

Definition sensitivitaeten (D : Defaults.t) (e : Eingaben)
    (sens_bedarf sens_jaz : Q) : option Sensitivitaet :=
  let q_h_sens := jahres_heizwaermebedarf sens_bedarf (wohnflaeche e) in
  oel_l_sens <- oel_verbrauch_l q_h_sens (Defaults.heizwert_oel_kwh_l D) (eta_oel e) ;;
  gas_m3_sens <- gas_verbrauch_m3 q_h_sens (Defaults.heizwert_gas_kwh_m3 D) (eta_gas e) ;;
  wp_kwh_sens <- wp_strombedarf_kwh q_h_sens sens_jaz ;;
  Some {|
    q_h_sens := q_h_sens;
    oel_l_sens := oel_l_sens;
    gas_m3_sens := gas_m3_sens;
    wp_kwh_sens := wp_kwh_sens;
    wp_kosten_sens :=
      kosten_wp wp_kwh_sens (pv_deckung_wp e) (strompreis_wp e) (lcoe_pv e);
    oel_kosten_sens := oel_l_sens * preis_oel e;
    gas_kosten_sens := gas_m3_sens * preis_gas e
  |}.

(** ** Formatting

    [euro], [kwh_fmt], [liter_fmt] and [m3_fmt] format a number with
    [f"{x:,.{nd}f}"], append a blank and the unit, and then run three
    [str.replace] calls.  Strings are sequences of UTF-8 bytes here; the
    three replaced characters are ASCII, so replacing bytes is replacing
    characters. *)

(** [s.replace(old, new)] for one-character [old] and [new]. *)
Fixpoint py_replace (old new : ascii) (s : string) : string :=
  match s with
  | EmptyString => EmptyString
  | String c rest =>
      String (if Ascii.eqb c old then new else c) (py_replace old new rest)
  end.

(** Rounding to the nearest integer, ties to even, of a non-negative
    rational: what the fixed-point presentation type does with the exact
    value of its argument. *)
Definition round_half_even (x : Q) : Z :=
  let f := Qfloor x in
  let r := x - inject_Z f in
  if Qlt_le_dec r (1 # 2) then f
  else if Qlt_le_dec (1 # 2) r then (f + 1)%Z
  else if Z.even f then f else (f + 1)%Z.

(** The grouping option [,]: a comma before every block of three digits
    counted from the right. *)
Fixpoint group_thousands (s : string) : string :=
  match s with
  | EmptyString => EmptyString
  | String c rest =>
      String c
        (if (0 <? String.length rest)%nat && (String.length rest mod 3 =? 0)%nat
         then String "," (group_thousands rest)
         else group_thousands rest)
  end.

Fixpoint zeros (n : nat) : string :=
  match n with
  | O => EmptyString
  | S k => String "0" (zeros k)
  end.

(** [f"{x:,.{nd}f}"]: sign, integer part grouped by thousands, and [nd]
    decimals after a point when [nd] is positive. *)
Definition py_format_f (x : Q) (nd : nat) : string :=
  let n := round_half_even (Qabs x * inject_Z (10 ^ Z.of_nat nd)) in
  let ds := NilZero.string_of_uint (N.to_uint (Z.to_N n)) in
  let ds := (zeros (S nd - String.length ds) ++ ds)%string in
  let k := (String.length ds - nd)%nat in
  let ganz := String.substring 0 k ds in
  let frac := String.substring k nd ds in
  ((if Qlt_le_dec x 0 then "-" else "")
   ++ group_thousands ganz
   ++ (match nd with O => "" | S _ => String "." frac end))%string.

(** The units: the euro sign and the superscript three are the UTF-8
    bytes E2 82 AC and C2 B3. *)
Definition unit_euro : string :=
  String "226" (String "130" (String "172" EmptyString)).
Definition unit_kwh : string := "kWh".
Definition unit_liter : string := "L".
Definition unit_m3 : string := String "m" (String "194" (String "179" EmptyString)).

(** The common body of the four functions. *)
Definition fmt_unit (unit : string) (x : Q) (nd : nat) : string :=
  py_replace " " "."
    (py_replace "." ","
       (py_replace "," " " (py_format_f x nd ++ " " ++ unit)%string)).

Definition euro (x : Q) (nd : nat) : string := fmt_unit unit_euro x nd.
Definition kwh_fmt (x : Q) (nd : nat) : string := fmt_unit unit_kwh x nd.
Definition liter_fmt (x : Q) (nd : nat) : string := fmt_unit unit_liter x nd.
Definition m3_fmt (x : Q) (nd : nat) : string := fmt_unit unit_m3 x nd.

(** What the three replacements do to one character. *)
Definition deutsch (c : ascii) : ascii :=
  if Ascii.eqb c "," then "."%char
  else if Ascii.eqb c "." then ","%char
  else if Ascii.eqb c " " then "."%char
  else c.

Fixpoint string_map (f : ascii -> ascii) (s : string) : string :=
  match s with
  | EmptyString => EmptyString
  | String c rest => String (f c) (string_map f rest)
  end.

Fixpoint string_forallb (p : ascii -> bool) (s : string) : bool :=
  match s with
  | EmptyString => true
  | String c rest => p c && string_forallb p rest
  end.

Definition is_digit (c : ascii) : bool :=
  (48 <=? nat_of_ascii c)%nat && (nat_of_ascii c <=? 57)%nat.

(** The characters of a formatted number, before and after the
    replacements. *)
Definition digit_or_comma_or_minus (c : ascii) : bool :=
  is_digit c || Ascii.eqb c "," || Ascii.eqb c "-".

Definition digit_or_dot_or_minus (c : ascii) : bool :=
  is_digit c || Ascii.eqb c "." || Ascii.eqb c "-".

(** ** The sidebar on doubles

    The coverage slider returns an int percentage that is divided by
    [100.0]; the fourth KPI shows [int(pv_deckung_wp*100)], and the
    slider's start value is [int(DEFAULTS["pv_deckung_wp"]*100)]. *)
Module Binary64Sidebar.
Local Open Scope float_scope.

(** [int(x)] on a float: truncation towards zero; NaN and the infinities
    raise. *)
Definition py_int (x : float) : option Z :=
  match Prim2SF x with
  | S754_zero _ => Some 0%Z
  | S754_finite s m e =>
      let a := match e with
               | Z0 => Zpos m
               | Zpos k => Z.shiftl (Zpos m) (Zpos k)
               | Zneg k => Z.shiftr (Zpos m) (Zpos k)
               end in
      Some (if s then Z.opp a else a)
  | S754_infinity _ => None
  | S754_nan => None
  end.

Definition pv_deckung_wp (slider : Z) : float :=
  PrimFloat.of_uint63 (Uint63.of_Z slider) / 100.0.

Definition kpi4 (pv_deckung_wp : float) : option Z :=
  py_int (pv_deckung_wp * 100).

Definition slider_vorgabe : option Z := py_int (0.20 * 100).

(** The positions of [st.sidebar.slider(..., 0, 60, ..., step=5)]. *)
Definition slider_positionen : list Z :=
  List.map (fun k => (5 * Z.of_nat k)%Z) (List.seq 0 13).
End Binary64Sidebar.

(** ** The specification's wording on doubles *)
Module Binary64Spec.
Local Open Scope float_scope.

Definition spec_solarPortion (electricityDemand solarCoverageFraction : float) : float :=
  electricityDemand * solarCoverageFraction.

Definition spec_gridPortion (electricityDemand solarCoverageFraction : float) : float :=
  Binary64.py_max (electricityDemand * (1 - solarCoverageFraction)) 0.

Definition spec_HeatPumpCost
    (electricityDemand solarCoverageFraction gridPrice solarLevelizedCost : float) : float :=
  spec_solarPortion electricityDemand solarCoverageFraction * solarLevelizedCost
  + spec_gridPortion electricityDemand solarCoverageFraction * gridPrice.
End Binary64Spec.

(** ** Magnitudes

    Bounds that keep products and quotients of the inputs inside the
    range of a double: a product of two numbers of at most [gross] does
    not overflow, a product of two numbers of at least [klein] does not
    underflow. *)
Definition klein : Q := 1e-100.
Definition gross : Q := 1e100.

(** ** Rounded arithmetic

    [kosten_wp] and [co2_wp] with a rounding [rnd] after every arithmetic
    operation of the source, in the order the interpreter evaluates them;
    [max] and the comparison with [0] are exact.  The specification's
    wording of the cost is rounded the same way. *)
Module Gerundet.
Section Modell.
Variable rnd : Q -> Q.

Definition kosten_wp_netz_kwh (strombedarf_wp pv_deck : Q) : Q :=
  py_max (rnd (strombedarf_wp - rnd (strombedarf_wp * pv_deck))) 0.

Definition co2_wp_netz_kwh (strombedarf_wp pv_deck : Q) : Q :=
  py_max (rnd (strombedarf_wp * rnd (1 - pv_deck))) 0.

Definition kosten_wp (strombedarf_wp pv_deck strompreis lcoe_pv : Q) : Q :=
  let pv_kwh := rnd (strombedarf_wp * pv_deck) in
  let netz_kwh := py_max (rnd (strombedarf_wp - pv_kwh)) 0 in
  rnd (rnd (pv_kwh * lcoe_pv) + rnd (netz_kwh * strompreis)).

Definition co2_wp (strombedarf_wp pv_deck co2_strom : Q) : Q :=
  let netz_kwh := py_max (rnd (strombedarf_wp * rnd (1 - pv_deck))) 0 in
  rnd (netz_kwh * co2_strom).

Definition spec_gridPortion (electricityDemand solarCoverageFraction : Q) : Q :=
  Qmax (rnd (electricityDemand * rnd (1 - solarCoverageFraction))) 0.

Definition spec_HeatPumpCost
    (electricityDemand solarCoverageFraction gridPrice solarLevelizedCost : Q) : Q :=
  rnd (rnd (rnd (electricityDemand * solarCoverageFraction) * solarLevelizedCost)
       + rnd (spec_gridPortion electricityDemand solarCoverageFraction * gridPrice)).
End Modell.
End Gerundet.

(** The standard model of floating-point arithmetic: on arguments of
    magnitude at most [hi], rounding changes a number by at most the
    relative error [u], plus the absolute error [eta] that covers gradual
    underflow. *)
Definition standard_model (rnd : Q -> Q) (u eta hi : Q) : Prop :=
  0 <= u /\ u <= 1 /\ 0 <= eta /\ eta <= 1 /\
  forall x : Q, Qabs x <= hi -> Qabs (rnd x - x) <= u * Qabs x + eta.

(** Rounding to the nearest double, ties to even, of a rational below the
    overflow threshold.  [Qlog2] is the binary exponent floor(log2 x) of a
    positive rational; the spacing of the doubles around [x] is
    2^(exponent - 52), and 2^-1074 in the subnormal range. *)
Definition Qlog2 (x : Q) : Z :=
  let k := (Z.log2 (Qnum x) - Z.log2 (Zpos (Qden x)))%Z in
  if Qle_bool (2 ^ k) x then k else (k - 1)%Z.

Definition rnd64 (x : Q) : Q :=
  if Qeq_bool x 0 then 0
  else
    let e := Z.max (Qlog2 (Qabs x)) (-1022) in
    let ulp := 2 ^ (e - 52) in
    let n := inject_Z (round_half_even (Qabs x / ulp)) in
    (if Qlt_le_dec x 0 then - n else n) * ulp.

(** Unit roundoff and underflow unit of the doubles, and a magnitude
    below which no rounding overflows. *)
Definition u64 : Q := 1 # (2 ^ 53).
Definition eta64 : Q := 1 # (2 ^ 1075).
Definition hi64 : Q := 2 ^ 1023.

(** The rational a finite double stands for. *)
Definition Q_of_float (x : float) : Q :=
  match Prim2SF x with
  | S754_finite s m e =>
      (if s then - inject_Z (Zpos m) else inject_Z (Zpos m)) * 2 ^ e
  | _ => 0
  end.


(** The bound on the distance between the rounded and the exact
    [kosten_wp]: two roundings in each product, one in the sum. *)
Definition kosten_wp_rundungsfehler (u eta s price lcoe : Q) : Q :=
  u * ((7 * s + 3) * lcoe + (21 * s + 10) * price + 2)
  + eta * (3 + lcoe + 2 * price).

(** * Properties *)

(** ** Python primitives *)

Ltac py_max_cases :=
  unfold py_max; repeat match goal with
  | |- context [Qlt_le_dec ?a ?b] => destruct (Qlt_le_dec a b)
  end.

Lemma py_max_Qmax (a b : Q) : py_max a b == Qmax a b.
Proof.
  unfold py_max. destruct (Qlt_le_dec a b) as [Hlt | Hle].
  - symmetry. apply Q.max_r. apply Qlt_le_weak. exact Hlt.
  - symmetry. apply Q.max_l. exact Hle.
Qed.

Lemma py_max_l (a b : Q) : b <= a -> py_max a b = a.
Proof.
  intros Hle. unfold py_max. destruct (Qlt_le_dec a b) as [Hlt | _].
  - exfalso. lra.
  - reflexivity.
Qed.

Lemma py_max_r (a b : Q) : a < b -> py_max a b = b.
Proof.
  intros Hlt. unfold py_max. destruct (Qlt_le_dec a b) as [_ | Hle].
  - reflexivity.
  - exfalso. lra.
Qed.

Lemma py_max_nonneg (a : Q) : 0 <= py_max a 0.
Proof. py_max_cases; lra. Qed.

Lemma py_max_compat (a a' b b' : Q) :
  a == a' -> b == b' -> py_max a b == py_max a' b'.
Proof. intros Ha Hb. py_max_cases; lra. Qed.

#[export] Instance py_max_Proper : Proper (Qeq ==> Qeq ==> Qeq) py_max.
Proof. intros a a' Ha b b' Hb. apply py_max_compat; assumption. Qed.

Lemma py_div_Some (a b : Q) : ~ b == 0 -> py_div a b = Some (a / b).
Proof.
  intros Hb. unfold py_div.
  destruct (Qeq_bool b 0) eqn:E.
  - apply Qeq_bool_eq in E. contradiction.
  - reflexivity.
Qed.

Lemma py_div_None (a b : Q) : b == 0 -> py_div a b = None.
Proof.
  intros Hb. unfold py_div.
  rewrite (Qeq_eq_bool _ _ Hb). reflexivity.
Qed.

Lemma py_div_inv (a b r : Q) :
  py_div a b = Some r -> ~ b == 0 /\ r = a / b.
Proof.
  unfold py_div. destruct (Qeq_bool b 0) eqn:E; intros H.
  - discriminate H.
  - split.
    + intros Hb. rewrite (Qeq_eq_bool _ _ Hb) in E. discriminate E.
    + injection H as H. symmetry. exact H.
Qed.

(** A quotient by a non-zero divisor, multiplied back. *)
Lemma Qdiv_cancel (a b : Q) : ~ b == 0 -> (a / b) * b == a.
Proof. intros Hb. field. exact Hb. Qed.

(** The quotient of a positive number by a positive one is positive and
    strictly decreasing in the divisor. *)
Lemma Qdiv_pos (a b : Q) : 0 < a -> 0 < b -> 0 < a / b.
Proof.
  intros Ha Hb.
  apply Qlt_shift_div_l; [exact Hb | lra].
Qed.

Lemma Qdiv_antitone_le (a b c : Q) :
  0 <= a -> 0 < b -> b <= c -> a / c <= a / b.
Proof.
  intros Ha Hb Hbc.
  assert (Hc : 0 < c) by lra.
  assert (Hqb : 0 <= a / b).
  { apply Qle_shift_div_l; [exact Hb | lra]. }
  apply Qle_shift_div_r; [exact Hc |].
  assert (E : a == (a / b) * b) by (symmetry; apply Qdiv_cancel; lra).
  rewrite E at 1.
  rewrite !(Qmult_comm (a / b)). apply Qmult_le_compat_r; assumption.
Qed.

Lemma Qdiv_nonneg (a b : Q) : 0 <= a -> 0 < b -> 0 <= a / b.
Proof. intros Ha Hb. apply Qle_shift_div_l; [exact Hb | lra]. Qed.

Lemma klein_pos : 0 < klein.
Proof. reflexivity. Qed.

(** ** Heat pump: cost and emissions *)

(** [kosten_wp] and [co2_wp] in terms of their local variables. *)
Lemma kosten_wp_terms (s p price lcoe : Q) :
  kosten_wp s p price lcoe =
  kosten_wp_pv_kwh s p * lcoe + kosten_wp_netz_kwh s p * price.
Proof. reflexivity. Qed.

Lemma co2_wp_terms (s p co2 : Q) :
  co2_wp s p co2 = co2_wp_netz_kwh s p * co2.
Proof. reflexivity. Qed.

(** While the solar share does not exceed the demand the guard is inert
    and the grid quantity is the plain remainder. *)
Lemma kosten_wp_netz_kwh_inert (s p : Q) :
  0 <= s -> p <= 1 -> kosten_wp_netz_kwh s p == s - s * p.
Proof.
  intros Hs Hp. unfold kosten_wp_netz_kwh, kosten_wp_pv_kwh.
  rewrite py_max_l; [reflexivity | nra].
Qed.

Lemma co2_wp_netz_kwh_inert (s p : Q) :
  0 <= s -> p <= 1 -> co2_wp_netz_kwh s p == s - s * p.
Proof.
  intros Hs Hp. unfold co2_wp_netz_kwh.
  rewrite py_max_l; [ring | nra].
Qed.

(** Once the solar share reaches the demand the guard clamps the grid
    quantity to zero. *)
Lemma kosten_wp_netz_kwh_clamped (s p : Q) :
  0 <= s -> 1 <= p -> kosten_wp_netz_kwh s p == 0.
Proof.
  intros Hs Hp. unfold kosten_wp_netz_kwh, kosten_wp_pv_kwh.
  py_max_cases; nra.
Qed.

Lemma co2_wp_netz_kwh_clamped (s p : Q) :
  0 <= s -> 1 <= p -> co2_wp_netz_kwh s p == 0.
Proof.
  intros Hs Hp. unfold co2_wp_netz_kwh.
  py_max_cases; nra.
Qed.

Lemma kosten_wp_inert (s p price lcoe : Q) :
  0 <= s -> p <= 1 ->
  kosten_wp s p price lcoe == s * price + s * p * (lcoe - price).
Proof.
  intros Hs Hp. rewrite kosten_wp_terms.
  rewrite (kosten_wp_netz_kwh_inert s p Hs Hp).
  unfold kosten_wp_pv_kwh. ring.
Qed.

Lemma co2_wp_inert (s p co2 : Q) :
  0 <= s -> p <= 1 -> co2_wp s p co2 == (s - s * p) * co2.
Proof.
  intros Hs Hp. rewrite co2_wp_terms.
  rewrite (co2_wp_netz_kwh_inert s p Hs Hp). reflexivity.
Qed.

(** The emissions never grow with the coverage, whatever the coverage. *)
Lemma co2_wp_antitone (s co2 p1 p2 : Q) :
  0 <= s -> 0 <= co2 -> p1 <= p2 -> co2_wp s p2 co2 <= co2_wp s p1 co2.
Proof.
  intros Hs Hc Hp. unfold co2_wp.
  apply Qmult_le_compat_r; [| exact Hc].
  py_max_cases; nra.
Qed.

(** In exact arithmetic the cost does not grow with the coverage as long
    as solar power is not dearer than grid power and the coverage stays
    within the demand. *)
Lemma kosten_wp_antitone (s price lcoe p1 p2 : Q) :
  0 <= s -> lcoe <= price -> p1 <= p2 -> p2 <= 1 ->
  kosten_wp s p2 price lcoe <= kosten_wp s p1 price lcoe.
Proof.
  intros Hs Hl Hp H1.
  rewrite (kosten_wp_inert s p2 price lcoe Hs H1).
  rewrite (kosten_wp_inert s p1 price lcoe Hs); [| lra].
  assert (H : 0 <= s * (p2 - p1)) by (apply Qmult_le_0_compat; lra).
  nra.
Qed.

(** The two terms of the cost move in opposite directions: the
    grid-covered quantity never grows with the coverage, the
    solar-covered quantity never shrinks. *)
Lemma kosten_wp_netz_kwh_antitone (s p1 p2 : Q) :
  0 <= s -> p1 <= p2 -> kosten_wp_netz_kwh s p2 <= kosten_wp_netz_kwh s p1.
Proof.
  intros Hs Hp. unfold kosten_wp_netz_kwh, kosten_wp_pv_kwh.
  assert (H : s * p1 <= s * p2).
  { rewrite !(Qmult_comm s). apply Qmult_le_compat_r; assumption. }
  py_max_cases; lra.
Qed.

Lemma kosten_wp_pv_kwh_monotone (s p1 p2 : Q) :
  0 <= s -> p1 <= p2 -> kosten_wp_pv_kwh s p1 <= kosten_wp_pv_kwh s p2.
Proof.
  intros Hs Hp. unfold kosten_wp_pv_kwh.
  rewrite !(Qmult_comm s). apply Qmult_le_compat_r; assumption.
Qed.

(** In exact arithmetic a larger demand costs no less and emits no less. *)
Lemma kosten_wp_mono_demand (s1 s2 p price lcoe : Q) :
  0 <= p -> p <= 1 -> 0 <= price -> 0 <= lcoe -> s1 <= s2 ->
  kosten_wp s1 p price lcoe <= kosten_wp s2 p price lcoe.
Proof.
  intros Hp0 Hp1 Hpr Hl Hs. unfold kosten_wp. cbv zeta.
  assert (A : s1 * p * lcoe <= s2 * p * lcoe).
  { apply Qmult_le_compat_r; [| exact Hl].
    apply Qmult_le_compat_r; assumption. }
  assert (B : py_max (s1 - s1 * p) 0 * price <= py_max (s2 - s2 * p) 0 * price).
  { apply Qmult_le_compat_r; [| exact Hpr]. py_max_cases; nra. }
  lra.
Qed.

Lemma co2_wp_mono_demand (s1 s2 p co2 : Q) :
  p <= 1 -> 0 <= co2 -> s1 <= s2 -> co2_wp s1 p co2 <= co2_wp s2 p co2.
Proof.
  intros Hp Hc Hs. unfold co2_wp. cbv zeta.
  apply Qmult_le_compat_r; [| exact Hc]. py_max_cases; nra.
Qed.

(** ** Rounded arithmetic

    Error bounds in the standard model: each rounding contributes at most
    [u] times a bound on its argument, plus [eta]. *)
Section Rundungsfehler.
Variable rnd : Q -> Q.
Variables u eta hi : Q.
Hypothesis model : standard_model rnd u eta hi.

Lemma rnd_error_nonneg (x : Q) :
  0 <= x -> x <= hi -> - (u * x + eta) <= rnd x - x /\ rnd x - x <= u * x + eta.
Proof.
  intros H0 Hh. destruct model as (_ & _ & _ & _ & E).
  assert (A : Qabs x == x) by (apply Qabs_pos; exact H0).
  assert (Hx : Qabs x <= hi) by (rewrite A; exact Hh).
  specialize (E x Hx). rewrite A in E.
  apply Qabs_Qle_condition in E. exact E.
Qed.

Lemma rnd_error_bound (x b : Q) :
  - b <= x -> x <= b -> b <= hi ->
  - (u * b + eta) <= rnd x - x /\ rnd x - x <= u * b + eta.
Proof.
  intros Hl Hu Hh. destruct model as (U0 & _ & _ & _ & E).
  assert (A : Qabs x <= b) by (apply Qabs_Qle_condition; split; assumption).
  assert (Hx : Qabs x <= hi) by lra.
  specialize (E x Hx).
  assert (M : u * Qabs x <= u * b).
  { rewrite !(Qmult_comm u). apply Qmult_le_compat_r; assumption. }
  apply Qabs_Qle_condition in E. lra.
Qed.

(** [max(x, 0)] does not increase distances. *)
Lemma py_max_0_lipschitz (a b d : Q) :
  - d <= a - b -> a - b <= d -> - d <= py_max a 0 - py_max b 0 /\ py_max a 0 - py_max b 0 <= d.
Proof. intros H1 H2. py_max_cases; lra. Qed.


(** Crude magnitudes of the intermediate results, to keep every rounded
    argument below [hi]. *)
Lemma netz_kwh_raw_magnitude (s p : Q) :
  0 <= s -> 0 <= p -> p <= 1 -> 3 * s + 1 <= hi ->
  - 1 <= rnd (s * p) /\ rnd (s * p) <= 2 * s + 1 /\
  rnd (s - rnd (s * p)) <= 4 * s + 3 /\
  rnd (s * rnd (1 - p)) <= 6 * s + 1.
Proof.
  intros Hs Hp0 Hp1 Hhi.
  destruct model as (U0 & U1 & E0 & E1 & _).
  assert (Hsp0 : 0 <= s * p) by (apply Qmult_le_0_compat; assumption).
  assert (Hsp1 : s * p <= s) by nra.
  destruct (rnd_error_nonneg (s * p) Hsp0) as [a1 a2]; [lra |].
  set (a := rnd (s * p)) in *.
  assert (Husp0 : 0 <= u * (s * p)) by (apply Qmult_le_0_compat; assumption).
  assert (Husp' : u * (s * p) <= s * p).
  { assert (u * (s * p) <= 1 * (s * p)) by (apply Qmult_le_compat_r; assumption). lra. }
  assert (Husp : u * (s * p) <= s) by lra.
  split; [lra | split; [lra |]].
  set (b2 := 2 * s + 1).
  destruct (rnd_error_bound (s - a) b2) as [c1 c2]; try (unfold b2; lra).
  assert (Hub2 : u * b2 <= b2).
  { assert (u * b2 <= 1 * b2) by (apply Qmult_le_compat_r; unfold b2; lra). lra. }
  split; [unfold b2 in *; lra |].
  assert (H1p : 0 <= 1 - p) by lra.
  destruct (rnd_error_nonneg (1 - p) H1p) as [d1 d2]; [lra |].
  set (b := rnd (1 - p)) in *.
  assert (Hu1p : 0 <= u * (1 - p)) by (apply Qmult_le_0_compat; assumption).
  assert (Hu1p' : u * (1 - p) <= 1) by nra.
  set (b4 := 3 * s).
  assert (Hsb_hi : s * b <= b4).
  { unfold b4. rewrite (Qmult_comm 3), !(Qmult_comm s).
    apply Qmult_le_compat_r; lra. }
  assert (Hsb_lo : - b4 <= s * b).
  { unfold b4.
    assert (s * (- (3)) <= s * b).
    { rewrite !(Qmult_comm s). apply Qmult_le_compat_r; lra. }
    lra. }
  destruct (rnd_error_bound (s * b) b4 Hsb_lo Hsb_hi) as [e1 e2];
    [unfold b4; lra |].
  assert (Hub4 : u * b4 <= b4).
  { assert (u * b4 <= 1 * b4) by (apply Qmult_le_compat_r; unfold b4; lra). lra. }
  unfold b4 in *. lra.
Qed.



(** The rounded cost against the exact one. *)
Lemma kosten_wp_exact_bound (s p price lcoe : Q) :
  0 <= s -> 0 <= p -> p <= 1 -> 0 <= price -> 0 <= lcoe ->
  2 * (2 * s + 1) * lcoe + 2 * (6 * s + 3) * price + 2 <= hi ->
  3 * s + 1 <= hi ->
  - kosten_wp_rundungsfehler u eta s price lcoe
    <= Gerundet.kosten_wp rnd s p price lcoe - kosten_wp s p price lcoe /\
  Gerundet.kosten_wp rnd s p price lcoe - kosten_wp s p price lcoe
    <= kosten_wp_rundungsfehler u eta s price lcoe.
Proof.
  intros Hs Hp0 Hp1 Hpr Hl Hhi2 Hhi.
  destruct model as (U0 & U1 & E0 & E1 & _).
  destruct (netz_kwh_raw_magnitude s p Hs Hp0 Hp1 Hhi)
    as (a_lo & a_hi & A_hi & _).
  assert (Hsp0 : 0 <= s * p) by (apply Qmult_le_0_compat; assumption).
  assert (Hsp1 : s * p <= s) by nra.
  destruct (rnd_error_nonneg (s * p) Hsp0) as [a1 a2]; [lra |].
  assert (Husp : u * (s * p) <= u * s).
  { rewrite !(Qmult_comm u). apply Qmult_le_compat_r; assumption. }
  assert (Hus0 : 0 <= u * s) by (apply Qmult_le_0_compat; assumption).
  unfold Gerundet.kosten_wp, kosten_wp, kosten_wp_rundungsfehler. cbv zeta.
  set (a := rnd (s * p)) in *.
  destruct (rnd_error_bound (s - a) (2 * s + 1)) as [c1 c2];
    try lra.
  set (A := rnd (s - a)) in *.
  assert (dn1 : A - (s - s * p) <= u * (3 * s + 1) + 2 * eta) by lra.
  assert (dn2 : - (u * (3 * s + 1) + 2 * eta) <= A - (s - s * p)) by lra.
  destruct (py_max_0_lipschitz A (s - s * p) (u * (3 * s + 1) + 2 * eta) dn2 dn1)
    as [NL NR].
  set (N1 := py_max A 0) in *.
  set (n := py_max (s - s * p) 0) in *.
  set (Dn := u * (3 * s + 1) + 2 * eta) in *.
  assert (N1_0 : 0 <= N1) by apply py_max_nonneg.
  assert (N1_hi : N1 <= 6 * s + 3) by (unfold N1; py_max_cases; lra).
  set (M := 6 * s + 3) in *.
  assert (M0 : 0 <= M) by (unfold M; lra).
  assert (y1_0 : 0 <= N1 * price) by (apply Qmult_le_0_compat; assumption).
  assert (y1_hi : N1 * price <= M * price) by (apply Qmult_le_compat_r; assumption).
  assert (MP0 : 0 <= M * price) by (apply Qmult_le_0_compat; assumption).
  assert (yd1 : N1 * price - n * price <= Dn * price).
  { assert ((N1 - n) * price <= Dn * price) by (apply Qmult_le_compat_r; lra). lra. }
  assert (yd2 : - (Dn * price) <= N1 * price - n * price).
  { assert ((n - N1) * price <= Dn * price) by (apply Qmult_le_compat_r; lra). lra. }
  assert (L0 : 0 <= (2 * s + 1) * lcoe) by (apply Qmult_le_0_compat; lra).
  assert (MPhi : M * price <= hi) by (unfold M in *; lra).
  destruct (rnd_error_bound (N1 * price) (M * price))
    as [Y1l Y1h]; try lra.
  assert (uMP0 : 0 <= u * (M * price)) by (apply Qmult_le_0_compat; assumption).
  assert (uMP1 : u * (M * price) <= M * price).
  { assert (u * (M * price) <= 1 * (M * price))
      by (apply Qmult_le_compat_r; assumption). lra. }
  assert (x_hi : a * lcoe <= (2 * s + 1) * lcoe)
    by (apply Qmult_le_compat_r; assumption).
  assert (x_lo : - ((2 * s + 1) * lcoe) <= a * lcoe).
  { assert ((- (2 * s + 1)) * lcoe <= a * lcoe)
      by (apply Qmult_le_compat_r; lra). lra. }
  destruct (rnd_error_bound (a * lcoe) ((2 * s + 1) * lcoe)
              x_lo x_hi) as [Xl Xh]; [lra |].
  assert (uL0 : 0 <= u * ((2 * s + 1) * lcoe))
    by (apply Qmult_le_0_compat; assumption).
  assert (uL1 : u * ((2 * s + 1) * lcoe) <= (2 * s + 1) * lcoe).
  { assert (u * ((2 * s + 1) * lcoe) <= 1 * ((2 * s + 1) * lcoe))
      by (apply Qmult_le_compat_r; assumption). lra. }
  assert (xd1 : a * lcoe - s * p * lcoe <= (u * s + eta) * lcoe).
  { assert ((a - s * p) * lcoe <= (u * s + eta) * lcoe)
      by (apply Qmult_le_compat_r; lra). lra. }
  assert (xd2 : - ((u * s + eta) * lcoe) <= a * lcoe - s * p * lcoe).
  { assert ((s * p - a) * lcoe <= (u * s + eta) * lcoe)
      by (apply Qmult_le_compat_r; lra). lra. }
  set (X := rnd (a * lcoe)) in *.
  set (Y1 := rnd (N1 * price)) in *.
  set (bz := 2 * (2 * s + 1) * lcoe + 2 * M * price + 2).
  assert (bz_hi : bz <= hi) by (unfold bz, M in *; lra).
  destruct (rnd_error_bound (X + Y1) bz) as [Z1l Z1h];
    try (unfold bz; lra).
  assert (ubz : u * bz == 2 * (u * ((2 * s + 1) * lcoe)) + 2 * (u * (M * price)) + 2 * u)
    by (unfold bz; ring).
  assert (R : u * ((7 * s + 3) * lcoe + (21 * s + 10) * price + 2)
              + eta * (3 + lcoe + 2 * price)
              == 2 * (u * ((2 * s + 1) * lcoe)) + 2 * (u * (M * price)) + 2 * u
                 + eta
                 + (u * ((2 * s + 1) * lcoe) + eta + (u * s + eta) * lcoe)
                 + (u * (M * price) + eta + Dn * price)).
  { unfold Dn, M. ring. }
  rewrite R.
  split; lra.
Qed.

(** With solar power not dearer than grid power the rounded cost can grow
    with the coverage by no more than twice that distance. *)
Lemma kosten_wp_antitone_up_to_rounding (s price lcoe p1 p2 : Q) :
  0 <= s -> 0 <= p1 -> p1 <= p2 -> p2 <= 1 -> 0 <= lcoe -> lcoe <= price ->
  2 * (2 * s + 1) * lcoe + 2 * (6 * s + 3) * price + 2 <= hi ->
  3 * s + 1 <= hi ->
  Gerundet.kosten_wp rnd s p2 price lcoe
    <= Gerundet.kosten_wp rnd s p1 price lcoe
       + 2 * kosten_wp_rundungsfehler u eta s price lcoe.
Proof.
  intros Hs Hp0 Hp Hp1 Hl Hlp Hhi2 Hhi.
  assert (Hpr : 0 <= price) by lra.
  destruct (kosten_wp_exact_bound s p2 price lcoe) as [_ B2]; try lra.
  destruct (kosten_wp_exact_bound s p1 price lcoe) as [B1 _]; try lra.
  pose proof (kosten_wp_antitone s price lcoe p1 p2 Hs Hlp Hp Hp1) as K.
  lra.
Qed.
(** A larger demand costs no less, up to the same distance. *)
Lemma kosten_wp_mono_demand_up_to_rounding (s1 s2 p price lcoe : Q) :
  0 <= s1 -> s1 <= s2 -> 0 <= p -> p <= 1 -> 0 <= price -> 0 <= lcoe ->
  2 * (2 * s2 + 1) * lcoe + 2 * (6 * s2 + 3) * price + 2 <= hi ->
  3 * s2 + 1 <= hi ->
  Gerundet.kosten_wp rnd s1 p price lcoe
    <= Gerundet.kosten_wp rnd s2 p price lcoe
       + 2 * kosten_wp_rundungsfehler u eta s2 price lcoe.
Proof.
  intros Hs1 Hs Hp0 Hp1 Hpr Hl Hhi2 Hhi.
  destruct model as (U0 & U1 & E0 & E1 & _).
  assert (A1 : s1 * lcoe <= s2 * lcoe) by (apply Qmult_le_compat_r; assumption).
  assert (A2 : s1 * price <= s2 * price) by (apply Qmult_le_compat_r; assumption).
  destruct (kosten_wp_exact_bound s1 p price lcoe) as [_ B1]; try lra.
  destruct (kosten_wp_exact_bound s2 p price lcoe) as [B2 _]; try lra.
  pose proof (kosten_wp_mono_demand s1 s2 p price lcoe Hp0 Hp1 Hpr Hl Hs) as K.
  assert (M : kosten_wp_rundungsfehler u eta s1 price lcoe
              <= kosten_wp_rundungsfehler u eta s2 price lcoe).
  { unfold kosten_wp_rundungsfehler.
    assert ((7 * s1 + 3) * lcoe + (21 * s1 + 10) * price + 2
            <= (7 * s2 + 3) * lcoe + (21 * s2 + 10) * price + 2) by lra.
    assert (u * ((7 * s1 + 3) * lcoe + (21 * s1 + 10) * price + 2)
            <= u * ((7 * s2 + 3) * lcoe + (21 * s2 + 10) * price + 2)).
    { rewrite !(Qmult_comm u). apply Qmult_le_compat_r; assumption. }
    lra. }
  lra.
Qed.
End Rundungsfehler.


(** Rounding to the nearest double satisfies it with [u64] and [eta64]:
    the result is within half a spacing of the argument, and the spacing
    is at most 2^-52 times the argument, or 2^-1074. *)
Lemma round_half_even_error (x : Q) :
  - (1 # 2) <= inject_Z (round_half_even x) - x /\
  inject_Z (round_half_even x) - x <= 1 # 2.
Proof.
  pose proof (Qfloor_le x) as L.
  pose proof (Qlt_floor x) as U.
  rewrite inject_Z_plus in U. change (inject_Z 1) with 1 in U.
  unfold round_half_even. cbv zeta.
  destruct (Qlt_le_dec (x - inject_Z (Qfloor x)) (1 # 2)) as [A | A];
    [| destruct (Qlt_le_dec (1 # 2) (x - inject_Z (Qfloor x))) as [B | B];
       [| destruct (Z.even (Qfloor x))]];
    rewrite ?inject_Z_plus; change (inject_Z 1) with 1;
    generalize dependent (inject_Z (Qfloor x)); intros f; intros; split; lra.
Qed.

Lemma two_neq_0 : ~ 2 == 0.
Proof. intros H. discriminate H. Qed.

Lemma pow2_pos (e : Z) : 0 < 2 ^ e.
Proof. apply Qpower_0_lt. reflexivity. Qed.

Lemma Qlog2_spec (x : Q) :
  0 < x -> 2 ^ (Qlog2 x) <= x /\ x < 2 ^ (Qlog2 x + 1).
Proof.
  intros Hx. destruct x as [n d].
  assert (Hn : (0 < n)%Z).
  { unfold Qlt in Hx. simpl in Hx. lia. }
  unfold Qlog2. cbn [Qnum Qden].
  set (a := Z.log2 n). set (b := Z.log2 (Zpos d)).
  destruct (Z.log2_spec n Hn) as [A1 A2]. fold a in A1, A2.
  destruct (Z.log2_spec (Zpos d) (eq_refl Lt)) as [B1 B2]. fold b in B1, B2.
  assert (Ha : (0 <= a)%Z) by apply Z.log2_nonneg.
  assert (Hb : (0 <= b)%Z) by apply Z.log2_nonneg.
  (* the powers as rationals *)
  assert (Pa : 2 ^ a == inject_Z (2 ^ a)) by (rewrite Zpower_Qpower by exact Ha; reflexivity).
  assert (Pa1 : 2 ^ (a + 1) == inject_Z (2 ^ (a + 1)))
    by (rewrite Zpower_Qpower by lia; reflexivity).
  assert (Pb : 2 ^ b == inject_Z (2 ^ b)) by (rewrite Zpower_Qpower by exact Hb; reflexivity).
  assert (Pb1 : 2 ^ (b + 1) == inject_Z (2 ^ (b + 1)))
    by (rewrite Zpower_Qpower by lia; reflexivity).
  assert (X : n # d == inject_Z n / inject_Z (Zpos d)) by apply Qmake_Qdiv.
  assert (D0 : 0 < inject_Z (Zpos d)) by reflexivity.
  assert (Qa1 : inject_Z (2 ^ a) <= inject_Z n) by (rewrite <- Zle_Qle; exact A1).
  assert (Qa2 : inject_Z n < inject_Z (2 ^ (a + 1))) by (rewrite <- Zlt_Qlt; lia).
  assert (Qb1 : inject_Z (2 ^ b) <= inject_Z (Zpos d)) by (rewrite <- Zle_Qle; exact B1).
  assert (Qb2 : inject_Z (Zpos d) < inject_Z (2 ^ (b + 1))) by (rewrite <- Zlt_Qlt; lia).
  pose proof (pow2_pos a) as Za. pose proof (pow2_pos b) as Zb.
  pose proof (pow2_pos (a + 1)) as Za1. pose proof (pow2_pos (b + 1)) as Zb1.
  destruct (Qle_bool (2 ^ (a - b)) (n # d)) eqn:E.
  - apply Qle_bool_iff in E. split; [exact E |].
    (* n / d < 2^(a+1) / 2^b *)
    assert (R : 2 ^ (a - b + 1) == 2 ^ (a + 1) / 2 ^ b).
    { replace (a - b + 1)%Z with (a + 1 - b)%Z by lia.
      apply Qpower_minus. exact two_neq_0. }
    rewrite R, X.
    apply Qlt_shift_div_l; [exact Zb |].
    assert (S : inject_Z n / inject_Z (Zpos d) * 2 ^ b
                == inject_Z n * (2 ^ b / inject_Z (Zpos d))) by (field; lra).
    rewrite S.
    assert (T : 2 ^ b / inject_Z (Zpos d) <= 1).
    { apply Qle_shift_div_r; [exact D0 | lra]. }
    assert (T0 : 0 < 2 ^ b / inject_Z (Zpos d)).
    { apply Qlt_shift_div_l; [exact D0 | lra]. }
    assert (N0 : 0 < inject_Z n) by (rewrite <- (Zlt_Qlt 0); exact Hn).
    nra.
  - assert (F : ~ 2 ^ (a - b) <= n # d).
    { intros H. apply Qle_bool_iff in H. congruence. }
    apply Qnot_le_lt in F.
    split.
    + assert (R : 2 ^ (a - b - 1) == 2 ^ a / 2 ^ (b + 1)).
      { replace (a - b - 1)%Z with (a - (b + 1))%Z by lia.
        apply Qpower_minus. exact two_neq_0. }
      rewrite R, X.
      apply Qle_shift_div_r; [exact Zb1 |].
      assert (S : inject_Z n / inject_Z (Zpos d) * 2 ^ (b + 1)
                  == inject_Z n * (2 ^ (b + 1) / inject_Z (Zpos d))) by (field; lra).
      rewrite S.
      assert (T : 1 <= 2 ^ (b + 1) / inject_Z (Zpos d)).
      { apply Qle_shift_div_l; [exact D0 | lra]. }
      assert (N0 : 0 < inject_Z n) by (rewrite <- (Zlt_Qlt 0); exact Hn).
      nra.
    + replace (a - b - 1 + 1)%Z with (a - b)%Z by lia. exact F.
Qed.

Lemma rnd64_error (x : Q) : Qabs (rnd64 x - x) <= u64 * Qabs x + eta64.
Proof.
  unfold rnd64.
  destruct (Qeq_bool x 0) eqn:E0.
  { apply Qeq_bool_iff in E0.
    assert (R : 0 - x == 0) by lra.
    rewrite R, E0. vm_compute. intros H. discriminate H. }
  assert (Nx : ~ x == 0).
  { intros H. apply Qeq_bool_iff in H. congruence. }
  cbv zeta.
  set (a := Qabs x).
  assert (Ha : 0 < a).
  { unfold a. pose proof (Qabs_nonneg x) as H.
    apply Qle_lt_or_eq in H. destruct H as [H | H]; [exact H |].
    exfalso. apply Nx. revert H. apply Qabs_case; intros; lra. }
  destruct (Qlog2_spec a Ha) as [Lo _].
  set (e := Z.max (Qlog2 a) (-1022)).
  set (g := 2 ^ (e - 52)).
  assert (Hg : 0 < g) by apply pow2_pos.
  destruct (round_half_even_error (a / g)) as [R1 R2].
  set (n := inject_Z (round_half_even (a / g))) in *.
  assert (Y : a / g * g == a) by (field; lra).
  (* |n g - a| <= g / 2 *)
  assert (G1 : n * g - a <= g * (1 # 2)) by nra.
  assert (G2 : - (g * (1 # 2)) <= n * g - a) by nra.
  (* g / 2 <= u a + eta *)
  assert (B : g * (1 # 2) <= u64 * a + eta64).
  { assert (U : 0 <= u64 * a) by (apply Qmult_le_0_compat; [discriminate | lra]).
    destruct (Z.max_spec (Qlog2 a) (-1022)) as [[C1 C2] | [C1 C2]]; fold e in C2.
    - (* e = -1022 *)
      assert (Eg : g * (1 # 2) == eta64).
      { unfold g. rewrite C2. reflexivity. }
      lra.
    - assert (Eg : g == 2 ^ (Qlog2 a) * (1 # 2 ^ 52)).
      { unfold g. rewrite C2. rewrite Qpower_minus by exact two_neq_0.
        unfold Qdiv. apply Qmult_comp; [reflexivity |]. reflexivity. }
      assert (U2 : u64 == (1 # 2 ^ 52) * (1 # 2)) by reflexivity.
      assert (E64 : 0 <= eta64) by discriminate.
      assert (M : 2 ^ Qlog2 a * ((1 # 2 ^ 52) * (1 # 2)) <= a * ((1 # 2 ^ 52) * (1 # 2))).
      { apply Qmult_le_compat_r; [exact Lo | discriminate]. }
      rewrite Eg, U2. lra. }
  apply Qabs_Qle_condition.
  destruct (Qlt_le_dec x 0) as [Neg | Pos].
  - assert (Ea : a == - x) by (unfold a; apply Qabs_neg; lra).
    split; nra.
  - assert (Ea : a == x) by (unfold a; apply Qabs_pos; lra).
    split; nra.
Qed.

Lemma standard_model_rnd64 (hi : Q) : standard_model rnd64 u64 eta64 hi.
Proof.
  unfold standard_model.
  split; [discriminate |].
  split; [vm_compute; intros H; discriminate H |].
  split; [discriminate |].
  split; [vm_compute; intros H; discriminate H |].
  intros x _. apply rnd64_error.
Qed.

(** ** Heat pump: coverage *)

(** C1 (as stated, refuted).  With the default demand 38599/3.2 kWh and
    the default grid tariff 0.26, a solar cost equivalent of 0.30 (the
    widget only bounds it from below) makes the heat-pump cost grow when
    the coverage slider goes from 20 % to 60 %; the cost at full coverage
    is then above the cost at no coverage, so the minimum over [0,1] is
    not at 1. *)
Lemma kosten_wp_increasing_when_pv_dearer :
  0 <= 0.20 /\ 0.20 <= 0.60 /\ 0.60 <= 1 /\
  kosten_wp 12062.1875 0.20 0.26 0.30 < kosten_wp 12062.1875 0.60 0.26 0.30 /\
  kosten_wp 12062.1875 0 0.26 0.30 < kosten_wp 12062.1875 1 0.26 0.30.
Proof. vm_compute. repeat split; intros H; discriminate H. Qed.

(** C1 (amended).  For a non-negative electricity demand and grid CO2
    factor, [co2_wp] is non-increasing in the solar coverage fraction on
    [0,1] and minimal at coverage 1.  Of [kosten_wp], the grid-covered
    term is non-increasing and the solar-covered term non-decreasing in
    the coverage (non-negative tariffs); the cost is demand * solar
    levelized cost at coverage 1 and demand * grid price at coverage 0,
    so full coverage costs no more than none when the solar levelized
    cost does not exceed the grid price.  Under that condition the cost
    as computed with rounding is non-increasing on [0,1], and minimal at
    coverage 1, up to twice [kosten_wp_rundungsfehler]. *)
Theorem co2_wp_nonincreasing_kosten_wp_up_to_rounding
    (rnd : Q -> Q) (u eta hi s price lcoe co2 p1 p2 : Q) :
  0 <= s -> 0 <= co2 -> 0 <= p1 -> p1 <= p2 -> p2 <= 1 ->
  (co2_wp s p2 co2 <= co2_wp s p1 co2 /\ co2_wp s 1 co2 <= co2_wp s p1 co2) /\
  (0 <= price ->
   kosten_wp_netz_kwh s p2 * price <= kosten_wp_netz_kwh s p1 * price) /\
  (0 <= lcoe ->
   kosten_wp_pv_kwh s p1 * lcoe <= kosten_wp_pv_kwh s p2 * lcoe) /\
  kosten_wp s 1 price lcoe == s * lcoe /\
  kosten_wp s 0 price lcoe == s * price /\
  (lcoe <= price -> kosten_wp s 1 price lcoe <= kosten_wp s 0 price lcoe) /\
  (standard_model rnd u eta hi -> 0 <= lcoe -> lcoe <= price ->
   2 * (2 * s + 1) * lcoe + 2 * (6 * s + 3) * price + 2 <= hi ->
   3 * s + 1 <= hi ->
   Gerundet.kosten_wp rnd s p2 price lcoe
     <= Gerundet.kosten_wp rnd s p1 price lcoe
        + 2 * kosten_wp_rundungsfehler u eta s price lcoe /\
   Gerundet.kosten_wp rnd s 1 price lcoe
     <= Gerundet.kosten_wp rnd s p1 price lcoe
        + 2 * kosten_wp_rundungsfehler u eta s price lcoe).
Proof.
  intros Hs Hc Hp0 Hp Hp1.
  assert (K1 : kosten_wp s 1 price lcoe == s * lcoe).
  { rewrite (kosten_wp_inert s 1 price lcoe Hs); [ring | lra]. }
  assert (K0 : kosten_wp s 0 price lcoe == s * price).
  { rewrite (kosten_wp_inert s 0 price lcoe Hs); [ring | lra]. }
  split; [split; apply co2_wp_antitone; lra |].
  split.
  { intros Hpr. apply Qmult_le_compat_r; [| exact Hpr].
    apply kosten_wp_netz_kwh_antitone; assumption. }
  split.
  { intros Hl. apply Qmult_le_compat_r; [| exact Hl].
    apply kosten_wp_pv_kwh_monotone; assumption. }
  split; [exact K1 | split; [exact K0 | split]].
  - intros Hl. rewrite K1, K0.
    rewrite !(Qmult_comm s). apply Qmult_le_compat_r; assumption.
  - intros Hm Hl Hlp Hhi2 Hhi. split.
    + apply (kosten_wp_antitone_up_to_rounding rnd u eta hi Hm); assumption.
    + apply (kosten_wp_antitone_up_to_rounding rnd u eta hi Hm); lra.
Qed.

Lemma co2_wp_nonincreasing_kosten_wp_up_to_rounding_witness :
  co2_wp 12062.1875 0.60 0.35 <= co2_wp 12062.1875 0.20 0.35 /\
  kosten_wp_netz_kwh 12062.1875 0.60 * 0.26
    <= kosten_wp_netz_kwh 12062.1875 0.20 * 0.26 /\
  kosten_wp_pv_kwh 12062.1875 0.20 * 0.12
    <= kosten_wp_pv_kwh 12062.1875 0.60 * 0.12 /\
  kosten_wp 12062.1875 1 0.26 0.12 == 12062.1875 * 0.12 /\
  kosten_wp 12062.1875 0 0.26 0.12 == 12062.1875 * 0.26 /\
  kosten_wp 12062.1875 1 0.26 0.12 <= kosten_wp 12062.1875 0 0.26 0.12 /\
  Gerundet.kosten_wp rnd64 12062.1875 0.60 0.26 0.12
    <= Gerundet.kosten_wp rnd64 12062.1875 0.20 0.26 0.12
       + 2 * kosten_wp_rundungsfehler u64 eta64 12062.1875 0.26 0.12.
Proof.
  destruct (co2_wp_nonincreasing_kosten_wp_up_to_rounding
              rnd64 u64 eta64 hi64 12062.1875 0.26 0.12 0.35 0.20 0.60)
    as ((A & _) & B & C & D & E & F & G);
    try (vm_compute; intros H; discriminate H).
  split; [exact A |].
  split; [apply B; vm_compute; intros H; discriminate H |].
  split; [apply C; vm_compute; intros H; discriminate H |].
  split; [exact D | split; [exact E |]].
  split; [apply F; vm_compute; intros H; discriminate H |].
  apply G.
  - apply standard_model_rnd64.
  - vm_compute. intros H. discriminate H.
  - vm_compute. intros H. discriminate H.
  - vm_compute. intros H. discriminate H.
  - vm_compute. intros H. discriminate H.
Defined.



(** C5.  At coverage 1 the grid-covered cost term of [kosten_wp] and the
    result of [co2_wp] are zero, and at coverage 0 the solar-covered cost
    term of [kosten_wp] is zero, for every demand, price and CO2 factor;
    what remains of the cost is the other term alone. *)
Theorem pv_deck_boundaries (s price lcoe co2 : Q) :
  kosten_wp_netz_kwh s 1 * price == 0 /\
  co2_wp s 1 co2 == 0 /\
  kosten_wp_pv_kwh s 0 * lcoe == 0 /\
  kosten_wp s 1 price lcoe == s * lcoe /\
  kosten_wp s 0 price lcoe == py_max s 0 * price.
Proof.
  assert (Hn : kosten_wp_netz_kwh s 1 == 0).
  { unfold kosten_wp_netz_kwh, kosten_wp_pv_kwh. py_max_cases; lra. }
  assert (Hc : co2_wp_netz_kwh s 1 == 0).
  { unfold co2_wp_netz_kwh. py_max_cases; lra. }
  assert (Hp : kosten_wp_pv_kwh s 0 == 0).
  { unfold kosten_wp_pv_kwh. ring. }
  assert (H0 : kosten_wp_netz_kwh s 0 == py_max s 0).
  { unfold kosten_wp_netz_kwh, kosten_wp_pv_kwh.
    apply py_max_compat; [ring | reflexivity]. }
  repeat split.
  - rewrite Hn. ring.
  - rewrite co2_wp_terms, Hc. ring.
  - rewrite Hp. ring.
  - rewrite kosten_wp_terms, Hn. unfold kosten_wp_pv_kwh. ring.
  - rewrite kosten_wp_terms, Hp, H0. ring.
Qed.



(** C10 (amended).  For a coverage of at least 1 and a non-negative
    demand (both at most [gross]), [co2_wp] is zero and [kosten_wp] is
    demand * coverage * solarLevelizedCost: the solar term is not clamped
    to the demand, so beyond coverage 1 the cost is never below its value
    at coverage 1 when demand and solar levelized cost are positive.  It
    need not be above it: a coverage one rounding step above 1 can give
    the cost of coverage 1 (section on doubles below). *)
Theorem pv_deck_above_one_weak (s p price lcoe co2 : Q) :
  0 <= s -> s <= gross -> 1 <= p -> p <= gross ->
  co2_wp s p co2 == 0 /\
  kosten_wp s p price lcoe == s * p * lcoe /\
  (0 < s -> 0 < lcoe ->
   kosten_wp s 1 price lcoe <= kosten_wp s p price lcoe).
Proof.
  intros Hs _ Hp _.
  assert (Hk : forall p', 1 <= p' -> kosten_wp s p' price lcoe == s * p' * lcoe).
  { intros p' Hp'. rewrite kosten_wp_terms.
    rewrite (kosten_wp_netz_kwh_clamped s p' Hs Hp').
    unfold kosten_wp_pv_kwh. ring. }
  split; [| split].
  - rewrite co2_wp_terms, (co2_wp_netz_kwh_clamped s p Hs Hp). ring.
  - apply Hk. exact Hp.
  - intros Hs' Hl.
    rewrite (Hk 1), (Hk p) by lra.
    assert (H : 0 <= s * lcoe) by (apply Qmult_le_0_compat; lra).
    nra.
Qed.

Lemma pv_deck_above_one_weak_witness :
  co2_wp 12062.1875 1.2 0.35 == 0 /\
  kosten_wp 12062.1875 1.2 0.26 0.12 == 12062.1875 * 1.2 * 0.12 /\
  kosten_wp 12062.1875 1 0.26 0.12 <= kosten_wp 12062.1875 1.2 0.26 0.12.
Proof.
  destruct (pv_deck_above_one_weak 12062.1875 1.2 0.26 0.12 0.35)
    as (Hc & Hk & Hle);
    try (vm_compute; intros H; discriminate H).
  split; [exact Hc | split; [exact Hk | apply Hle; reflexivity]].
Defined.

(** ** Heat demand *)

(** C6 (amended).  The annual heat demand is specificDemand * livingArea;
    doubling either argument (both at least 1) doubles it; and for
    110 kWh/m2a on 350.9 m2 it is 38599.  Linearity in general holds only
    up to rounding: the demand of a sum of two specific demands need not
    be the sum of the demands (section on doubles below). *)
Theorem jahres_heizwaermebedarf_product_doubling (k w : Q) :
  jahres_heizwaermebedarf k w = k * w /\
  (1 <= k -> 1 <= w ->
   jahres_heizwaermebedarf (2 * k) w == 2 * jahres_heizwaermebedarf k w /\
   jahres_heizwaermebedarf k (2 * w) == 2 * jahres_heizwaermebedarf k w) /\
  jahres_heizwaermebedarf 110 350.9 == 38599.
Proof.
  unfold jahres_heizwaermebedarf.
  split; [reflexivity | split; [| reflexivity]].
  intros _ _. split; ring.
Qed.

Lemma jahres_heizwaermebedarf_product_doubling_witness :
  jahres_heizwaermebedarf (2 * 110) 350.9
    == 2 * jahres_heizwaermebedarf 110 350.9 /\
  jahres_heizwaermebedarf 110 (2 * 350.9)
    == 2 * jahres_heizwaermebedarf 110 350.9.
Proof.
  apply (jahres_heizwaermebedarf_product_doubling 110 350.9);
    vm_compute; intros H; discriminate H.
Defined.

(** ** Oil and gas *)




(** C7 (amended).  For every heat demand and every efficiency and heating
    value of magnitude at least [klein], oil and gas consumption are
    heatDemand / (efficiency * heatingValue).  The functions have no guard
    of their own: whenever the product efficiency * heatingValue is zero
    the division raises, and on doubles the product of two positive
    numbers can be zero (section on doubles below). *)
Theorem verbrauch_formula_away_from_zero (q h eta : Q) :
  (klein <= Qabs eta -> klein <= Qabs h ->
   oel_verbrauch_l q h eta = Some (q / (eta * h)) /\
   gas_verbrauch_m3 q h eta = Some (q / (eta * h))) /\
  (eta * h == 0 ->
   oel_verbrauch_l q h eta = None /\ gas_verbrauch_m3 q h eta = None).
Proof.
  unfold oel_verbrauch_l, gas_verbrauch_m3.
  split.
  - intros He Hh. pose proof klein_pos as K.
    assert (N : ~ eta * h == 0).
    { intros Z. apply Qmult_integral in Z. destruct Z as [Z | Z].
      - rewrite Z in He. vm_compute in He. apply He. reflexivity.
      - rewrite Z in Hh. vm_compute in Hh. apply Hh. reflexivity. }
    rewrite (py_div_Some q _ N). split; reflexivity.
  - intros Z. rewrite (py_div_None q _ Z). split; reflexivity.
Qed.

Lemma verbrauch_formula_away_from_zero_witness :
  (oel_verbrauch_l 38599 10.0 0.85 = Some (38599 / (0.85 * 10.0)) /\
   gas_verbrauch_m3 38599 10.0 0.85 = Some (38599 / (0.85 * 10.0))) /\
  (oel_verbrauch_l 38599 10.0 0 = None /\ gas_verbrauch_m3 38599 10.0 0 = None).
Proof.
  destruct (verbrauch_formula_away_from_zero 38599 10.0 0.85) as (A & _).
  destruct (verbrauch_formula_away_from_zero 38599 10.0 0) as (_ & C).
  split; [apply A; vm_compute; intros H; discriminate H |].
  apply C. reflexivity.
Defined.

(** ** Heat pump: electricity demand and utilisation hours *)

(** C8.  For every heat demand and every positive seasonal performance
    factor the electricity demand is heatDemand / JAZ.  In the scenario
    heatDemand = 38599, JAZ = 3.2 it is 12062.1875 (about 12062.2), and
    with coverage 0.20, grid price 0.26 and solar levelized cost 0.12 the
    cost is 289.4925 + 2508.935 = 2798.4275 (about 2798.43). *)
Theorem wp_strombedarf_scenario (q jaz : Q) :
  (0 < jaz -> wp_strombedarf_kwh q jaz = Some (q / jaz)) /\
  (exists wp_kwh : Q,
     wp_strombedarf_kwh 38599 3.2 = Some wp_kwh /\
     wp_kwh == 12062.1875 /\
     12062.2 - 0.05 <= wp_kwh <= 12062.2 + 0.05 /\
     kosten_wp_pv_kwh wp_kwh 0.20 * 0.12 == 289.4925 /\
     kosten_wp_netz_kwh wp_kwh 0.20 * 0.26 == 2508.935 /\
     kosten_wp wp_kwh 0.20 0.26 0.12 == 2798.4275 /\
     2798.43 - 0.005 <= kosten_wp wp_kwh 0.20 0.26 0.12 <= 2798.43 + 0.005).
Proof.
  split.
  - intros Hj. unfold wp_strombedarf_kwh. apply py_div_Some. lra.
  - exists (38599 / 3.2).
    split; [reflexivity |].
    vm_compute. repeat split; intros H; discriminate H.
Qed.

Lemma wp_strombedarf_scenario_witness :
  wp_strombedarf_kwh 38599 3.2 = Some (38599 / 3.2).
Proof.
  apply (proj1 (wp_strombedarf_scenario 38599 3.2)). reflexivity.
Defined.

(** C4.  The utilisation hours are heatDemand / max(ratedPower, 0.001).
    The divisor is positive, so the computation returns for every rated
    power, zero included; and from 0.001 upwards the guard is inert and
    the result is heatDemand / ratedPower. *)
Theorem vollbenutzungsstunden_wp_guarded (q_h wp_kw : Q) :
  vollbenutzungsstunden_wp q_h wp_kw = Some (q_h / py_max wp_kw 0.001) /\
  py_max wp_kw 0.001 == Qmax wp_kw 0.001 /\
  0 < py_max wp_kw 0.001 /\
  vollbenutzungsstunden_wp q_h 0 = Some (q_h / 0.001) /\
  (0.001 <= wp_kw -> vollbenutzungsstunden_wp q_h wp_kw = Some (q_h / wp_kw)).
Proof.
  assert (P : forall w, 0 < py_max w 0.001).
  { intros w. py_max_cases; lra. }
  assert (V : forall w,
            vollbenutzungsstunden_wp q_h w = Some (q_h / py_max w 0.001)).
  { intros w. unfold vollbenutzungsstunden_wp. apply py_div_Some.
    specialize (P w). lra. }
  split; [apply V |].
  split; [apply py_max_Qmax |].
  split; [apply P |].
  split; [reflexivity |].
  intros Hw. rewrite V, (py_max_l wp_kw 0.001 Hw). reflexivity.
Qed.

Lemma vollbenutzungsstunden_wp_guarded_witness :
  vollbenutzungsstunden_wp 38599 13.0 = Some (38599 / 13.0).
Proof.
  apply (vollbenutzungsstunden_wp_guarded 38599 13.0).
  vm_compute. intros H. discriminate H.
Defined.

(** ** The block "Berechnungen Basisszenario" *)

(** Within the bounds the widgets enforce no division of the block
    raises: the run produces its results. *)
Lemma basisszenario_total (e : Eingaben) :
  im_wertebereich e -> exists r : Ergebnis, basisszenario DEFAULTS e = Some r.
Proof.
  unfold im_wertebereich.
  intros (Hw & _ & _ & Hk & Hj & _ & _ & _ & _ & _ & _ & Hb & Ho & Hg).
  unfold basisszenario, oel_verbrauch_l, gas_verbrauch_m3, wp_strombedarf_kwh,
    vollbenutzungsstunden_wp.
  cbn [DEFAULTS Defaults.heizwert_oel_kwh_l Defaults.heizwert_gas_kwh_m3].
  rewrite (py_div_Some _ (eta_oel e * 10.0)) by lra.
  rewrite (py_div_Some _ (eta_gas e * 10.0)) by lra.
  rewrite (py_div_Some _ (jaz_wp e)) by lra.
  rewrite (py_div_Some _ (py_max (wp_kw e) 0.001))
    by (rewrite py_max_l; lra).
  cbn [bind]. eexists. reflexivity.
Qed.

(** The block on the sidebar as it comes up: the figures of the example
    scenarios of the documentation. *)
Lemma basisszenario_vorgabe :
  im_wertebereich eingaben_vorgabe /\
  exists r : Ergebnis,
    basisszenario DEFAULTS eingaben_vorgabe = Some r /\
    q_h r == 38599 /\
    pv_kwh r == 23275 /\
    oel_l r == 38599 / 8.5 /\
    res_oel_kosten r == 38599 / 8.5 * 1.05 /\
    res_oel_co2 r == 38599 / 8.5 * 2.65 /\
    gas_m3 r == 38599 / 9.5 /\
    wp_kwh r == 12062.1875 /\
    wp_kosten r == 2798.4275 /\
    wp_co2 r == 3377.4125 /\
    res_vollbenutzungsstunden_wp r == 38599 / 13.
Proof.
  split.
  - vm_compute. repeat split; intros H; discriminate H.
  - eexists. split; [vm_compute; reflexivity |].
    vm_compute. repeat split.
Qed.

(** ** Heat pump: bounds and monotonicity *)

(** Scaling the demand by a non-negative factor, in exact arithmetic. *)
Lemma py_max_scale (c a : Q) : 0 <= c -> py_max (c * a) 0 == c * py_max a 0.
Proof. intros Hc. py_max_cases; nra. Qed.

Lemma kosten_wp_scale (c s p price lcoe : Q) :
  0 <= c -> kosten_wp (c * s) p price lcoe == c * kosten_wp s p price lcoe.
Proof.
  intros Hc. unfold kosten_wp. cbv zeta.
  assert (E : c * s - c * s * p == c * (s - s * p)) by ring.
  rewrite E, (py_max_scale c _ Hc). ring.
Qed.

Lemma co2_wp_scale (c s p co2 : Q) :
  0 <= c -> co2_wp (c * s) p co2 == c * co2_wp s p co2.
Proof.
  intros Hc. unfold co2_wp. cbv zeta.
  assert (E : c * s * (1 - p) == c * (s * (1 - p))) by ring.
  rewrite E, (py_max_scale c _ Hc). ring.
Qed.

(** In exact arithmetic the cost is the demand at a blend of the two
    tariffs. *)
Lemma kosten_wp_blend (s p price lcoe : Q) :
  0 <= s -> 0 <= p -> p <= 1 ->
  s * Qmin lcoe price <= kosten_wp s p price lcoe /\
  kosten_wp s p price lcoe <= s * Qmax lcoe price.
Proof.
  intros Hs Hp0 Hp1.
  assert (E : kosten_wp s p price lcoe == s * (p * lcoe + (1 - p) * price)).
  { rewrite (kosten_wp_inert s p price lcoe Hs Hp1). ring. }
  assert (Lo : Qmin lcoe price <= p * lcoe + (1 - p) * price).
  { destruct (Q.min_spec lcoe price) as [[H1 H2] | [H1 H2]]; rewrite H2; nra. }
  assert (Hi : p * lcoe + (1 - p) * price <= Qmax lcoe price).
  { destruct (Q.max_spec lcoe price) as [[H1 H2] | [H1 H2]]; rewrite H2; nra. }
  rewrite E. split.
  - rewrite !(Qmult_comm s). apply Qmult_le_compat_r; assumption.
  - rewrite !(Qmult_comm s). apply Qmult_le_compat_r; assumption.
Qed.

(** X2.  For a coverage in [0,1] the heat-pump cost as computed with
    rounding lies between the demand at the cheaper and the demand at the
    dearer of solar levelized cost and grid price, up to
    [kosten_wp_rundungsfehler]. *)
Theorem kosten_wp_between_tariffs
    (rnd : Q -> Q) (u eta hi s p price lcoe : Q) :
  standard_model rnd u eta hi ->
  0 <= s -> 0 <= p -> p <= 1 -> 0 <= price -> 0 <= lcoe ->
  2 * (2 * s + 1) * lcoe + 2 * (6 * s + 3) * price + 2 <= hi ->
  3 * s + 1 <= hi ->
  s * Qmin lcoe price - kosten_wp_rundungsfehler u eta s price lcoe
    <= Gerundet.kosten_wp rnd s p price lcoe /\
  Gerundet.kosten_wp rnd s p price lcoe
    <= s * Qmax lcoe price + kosten_wp_rundungsfehler u eta s price lcoe.
Proof.
  intros Hm Hs Hp0 Hp1 Hpr Hl Hhi2 Hhi.
  destruct (kosten_wp_exact_bound rnd u eta hi Hm s p price lcoe) as [B1 B2];
    try assumption.
  destruct (kosten_wp_blend s p price lcoe Hs Hp0 Hp1) as [L H].
  split; lra.
Qed.

Lemma kosten_wp_between_tariffs_witness :
  12062.1875 * Qmin 0.12 0.26
    - kosten_wp_rundungsfehler u64 eta64 12062.1875 0.26 0.12
    <= Gerundet.kosten_wp rnd64 12062.1875 0.20 0.26 0.12 /\
  Gerundet.kosten_wp rnd64 12062.1875 0.20 0.26 0.12
    <= 12062.1875 * Qmax 0.12 0.26
       + kosten_wp_rundungsfehler u64 eta64 12062.1875 0.26 0.12.
Proof.
  apply (kosten_wp_between_tariffs rnd64 u64 eta64 hi64).
  - apply standard_model_rnd64.
  - vm_compute. intros H. discriminate H.
  - vm_compute. intros H. discriminate H.
  - vm_compute. intros H. discriminate H.
  - vm_compute. intros H. discriminate H.
  - vm_compute. intros H. discriminate H.
  - vm_compute. intros H. discriminate H.
  - vm_compute. intros H. discriminate H.
Defined.

(** X3.  For a non-negative demand, coverage and CO2 factor the emissions
    are non-negative and never exceed the emissions of drawing the whole
    demand from the grid. *)
Theorem co2_wp_range (s p co2 : Q) :
  0 <= s -> 0 <= p -> 0 <= co2 ->
  0 <= co2_wp s p co2 /\ co2_wp s p co2 <= s * co2.
Proof.
  intros Hs Hp Hc. unfold co2_wp. split.
  - apply Qmult_le_0_compat; [apply py_max_nonneg | exact Hc].
  - apply Qmult_le_compat_r; [| exact Hc].
    py_max_cases; nra.
Qed.

Lemma co2_wp_range_witness :
  0 <= co2_wp 12062.1875 0.20 0.35 /\
  co2_wp 12062.1875 0.20 0.35 <= 12062.1875 * 0.35.
Proof.
  apply (co2_wp_range 12062.1875 0.20 0.35);
    vm_compute; intros H; discriminate H.
Defined.

(** X4.  With a non-negative demand, a coverage in [0,1] and non-negative
    tariffs the cost is not negative. *)
Theorem kosten_wp_nonneg (s p price lcoe : Q) :
  0 <= s -> 0 <= p -> p <= 1 -> 0 <= price -> 0 <= lcoe ->
  0 <= kosten_wp s p price lcoe.
Proof.
  intros Hs Hp _ Hpr Hl. rewrite kosten_wp_terms.
  assert (0 <= kosten_wp_pv_kwh s p * lcoe).
  { apply Qmult_le_0_compat; [| exact Hl].
    unfold kosten_wp_pv_kwh. apply Qmult_le_0_compat; assumption. }
  assert (0 <= kosten_wp_netz_kwh s p * price).
  { apply Qmult_le_0_compat; [| exact Hpr].
    unfold kosten_wp_netz_kwh. apply py_max_nonneg. }
  lra.
Qed.

Lemma kosten_wp_nonneg_witness : 0 <= kosten_wp 12062.1875 0.20 0.26 0.12.
Proof.
  apply (kosten_wp_nonneg 12062.1875 0.20 0.26 0.12);
    vm_compute; intros H; discriminate H.
Defined.

(** X5.  Twice the demand costs twice as much and emits twice as much:
    doubling is exact on doubles as long as no intermediate result
    overflows or becomes subnormal, which the bounds [klein] and [gross]
    on the non-zero inputs ensure. *)
Theorem kosten_co2_wp_double_demand (s p price lcoe co2 : Q) :
  klein <= s -> s <= gross -> (p == 0 \/ klein <= p) -> p <= 1 ->
  (price == 0 \/ klein <= price) -> price <= gross ->
  (lcoe == 0 \/ klein <= lcoe) -> lcoe <= gross ->
  (co2 == 0 \/ klein <= co2) -> co2 <= gross ->
  kosten_wp (2 * s) p price lcoe == 2 * kosten_wp s p price lcoe /\
  co2_wp (2 * s) p co2 == 2 * co2_wp s p co2.
Proof.
  intros _ _ _ _ _ _ _ _ _ _. split.
  - apply kosten_wp_scale. discriminate.
  - apply co2_wp_scale. discriminate.
Qed.

Lemma kosten_co2_wp_double_demand_witness :
  kosten_wp (2 * 12062.1875) 0.20 0.26 0.12
    == 2 * kosten_wp 12062.1875 0.20 0.26 0.12 /\
  co2_wp (2 * 12062.1875) 0.20 0.35 == 2 * co2_wp 12062.1875 0.20 0.35.
Proof.
  apply (kosten_co2_wp_double_demand 12062.1875 0.20 0.26 0.12 0.35);
    try (right); vm_compute; intros H; discriminate H.
Defined.

(** X6.  A larger demand never emits less, and its solar-covered share
    never costs less, for a coverage in [0,1] and a non-negative solar
    levelized cost and CO2 factor.  The whole cost as computed with
    rounding never falls by more than twice [kosten_wp_rundungsfehler]:
    its grid-covered quantity is a difference of two rounded numbers and
    can fall by a rounding step between two neighbouring demands. *)
Theorem wp_monotone_demand
    (rnd : Q -> Q) (u eta hi s1 s2 p price lcoe co2 : Q) :
  0 <= p -> p <= 1 -> 0 <= lcoe -> 0 <= co2 -> s1 <= s2 ->
  co2_wp s1 p co2 <= co2_wp s2 p co2 /\
  kosten_wp_pv_kwh s1 p * lcoe <= kosten_wp_pv_kwh s2 p * lcoe /\
  (standard_model rnd u eta hi -> 0 <= s1 -> 0 <= price ->
   2 * (2 * s2 + 1) * lcoe + 2 * (6 * s2 + 3) * price + 2 <= hi ->
   3 * s2 + 1 <= hi ->
   Gerundet.kosten_wp rnd s1 p price lcoe
     <= Gerundet.kosten_wp rnd s2 p price lcoe
        + 2 * kosten_wp_rundungsfehler u eta s2 price lcoe).
Proof.
  intros Hp0 Hp1 Hl Hc Hs. split; [| split].
  - apply co2_wp_mono_demand; assumption.
  - apply Qmult_le_compat_r; [| exact Hl].
    unfold kosten_wp_pv_kwh. apply Qmult_le_compat_r; assumption.
  - intros Hm Hs1 Hpr Hhi2 Hhi.
    apply (kosten_wp_mono_demand_up_to_rounding rnd u eta hi Hm); assumption.
Qed.

Lemma wp_monotone_demand_witness :
  co2_wp 9000 0.20 0.35 <= co2_wp 12062.1875 0.20 0.35 /\
  kosten_wp_pv_kwh 9000 0.20 * 0.12 <= kosten_wp_pv_kwh 12062.1875 0.20 * 0.12 /\
  Gerundet.kosten_wp rnd64 9000 0.20 0.26 0.12
    <= Gerundet.kosten_wp rnd64 12062.1875 0.20 0.26 0.12
       + 2 * kosten_wp_rundungsfehler u64 eta64 12062.1875 0.26 0.12.
Proof.
  destruct (wp_monotone_demand rnd64 u64 eta64 hi64
              9000 12062.1875 0.20 0.26 0.12 0.35) as (A & B & C);
    try (vm_compute; intros H; discriminate H).
  split; [exact A | split; [exact B |]].
  apply C.
  - apply standard_model_rnd64.
  - vm_compute. intros H. discriminate H.
  - vm_compute. intros H. discriminate H.
  - vm_compute. intros H. discriminate H.
  - vm_compute. intros H. discriminate H.
Defined.

(** ** How the helper functions compose *)

(** X8.  A better seasonal performance factor never raises the electricity
    demand or the emissions of the heat pump (non-negative heat demand and
    CO2 factor, coverage in [0,1], JAZ at least 1), and the electricity
    demand never exceeds the heat demand. *)
Theorem wp_antitone_in_jaz (q jaz1 jaz2 p co2 : Q) :
  0 <= q -> 1 <= jaz1 -> jaz1 <= jaz2 -> 0 <= p -> p <= 1 -> 0 <= co2 ->
  exists k1 k2 : Q,
    wp_strombedarf_kwh q jaz1 = Some k1 /\
    wp_strombedarf_kwh q jaz2 = Some k2 /\
    0 <= k2 /\ k2 <= k1 /\ k1 <= q /\
    co2_wp k2 p co2 <= co2_wp k1 p co2.
Proof.
  intros Hq H1 H12 Hp0 Hp1 Hc.
  assert (N1 : ~ jaz1 == 0) by lra.
  assert (N2 : ~ jaz2 == 0) by lra.
  exists (q / jaz1), (q / jaz2).
  unfold wp_strombedarf_kwh.
  rewrite (py_div_Some q jaz1 N1), (py_div_Some q jaz2 N2).
  assert (L : q / jaz2 <= q / jaz1) by (apply Qdiv_antitone_le; lra).
  assert (P : 0 <= q / jaz2) by (apply Qdiv_nonneg; lra).
  assert (U : q / jaz1 <= q).
  { apply Qle_shift_div_r; [lra | nra]. }
  split; [reflexivity | split; [reflexivity |]].
  split; [exact P | split; [exact L | split; [exact U |]]].
  apply co2_wp_mono_demand; assumption.
Qed.

Lemma wp_antitone_in_jaz_witness :
  exists k1 k2 : Q,
    wp_strombedarf_kwh 38599 3.2 = Some k1 /\
    wp_strombedarf_kwh 38599 4.0 = Some k2 /\
    k2 <= k1 /\
    co2_wp k2 0.20 0.35 <= co2_wp k1 0.20 0.35.
Proof.
  destruct (wp_antitone_in_jaz 38599 3.2 4.0 0.20 0.35)
    as (k1 & k2 & H1 & H2 & _ & L & _ & C);
    try reflexivity; try (vm_compute; intros H; discriminate H).
  exists k1, k2.
  split; [exact H1 | split; [exact H2 | split; [exact L | exact C]]].
Defined.

Lemma vollbenutzungsstunden_wp_Some (q w : Q) :
  vollbenutzungsstunden_wp q w = Some (q / py_max w 0.001).
Proof.
  unfold vollbenutzungsstunden_wp. apply py_div_Some.
  py_max_cases; lra.
Qed.

(** X9.  For a non-negative heat demand the utilisation hours are
    non-negative and never grow with the rated power; at or below the
    guard value 0.001, negative powers included, they are constant at the
    heat demand divided by 0.001. *)
Theorem vollbenutzungsstunden_wp_antitone (q_h w1 w2 : Q) :
  0 <= q_h -> w1 <= w2 ->
  exists r1 r2 : Q,
    vollbenutzungsstunden_wp q_h w1 = Some r1 /\
    vollbenutzungsstunden_wp q_h w2 = Some r2 /\
    0 <= r2 /\ r2 <= r1 /\
    (w1 <= 0.001 -> r1 == q_h / 0.001).
Proof.
  intros Hq Hw.
  assert (P : forall w, 0 < py_max w 0.001) by (intros w; py_max_cases; lra).
  exists (q_h / py_max w1 0.001), (q_h / py_max w2 0.001).
  split; [apply vollbenutzungsstunden_wp_Some |].
  split; [apply vollbenutzungsstunden_wp_Some |].
  split; [apply Qdiv_nonneg; [exact Hq | apply P] |].
  split.
  - apply Qdiv_antitone_le; [exact Hq | apply P |]. py_max_cases; lra.
  - intros H1.
    assert (E : py_max w1 0.001 == 0.001) by (py_max_cases; lra).
    rewrite E. reflexivity.
Qed.

Lemma vollbenutzungsstunden_wp_antitone_witness :
  exists r1 r2 : Q,
    vollbenutzungsstunden_wp 38599 0 = Some r1 /\
    vollbenutzungsstunden_wp 38599 13.0 = Some r2 /\
    r2 <= r1 /\ r1 == 38599 / 0.001.
Proof.
  destruct (vollbenutzungsstunden_wp_antitone 38599 0 13.0)
    as (r1 & r2 & H1 & H2 & _ & L & E);
    try (vm_compute; intros H; discriminate H).
  exists r1, r2.
  split; [exact H1 | split; [exact H2 | split; [exact L |]]].
  apply E. vm_compute. intros H. discriminate H.
Defined.

(** ** The script blocks *)

Lemma py_div_None_inv (a b : Q) : py_div a b = None -> b == 0.
Proof.
  unfold py_div. destruct (Qeq_bool b 0) eqn:E; intros H.
  - apply Qeq_bool_eq. exact E.
  - discriminate H.
Qed.

(** X11.  The block raises exactly when one of its three unguarded divisors is
    zero: oil efficiency times oil heating value, gas efficiency times
    gas heating value, or the seasonal performance factor.  The rated
    power can never make it raise. *)
Theorem basisszenario_raises_iff (D : Defaults.t) (e : Eingaben) :
  basisszenario D e = None <->
  eta_oel e * Defaults.heizwert_oel_kwh_l D == 0 \/
  eta_gas e * Defaults.heizwert_gas_kwh_m3 D == 0 \/
  jaz_wp e == 0.
Proof.
  unfold basisszenario, oel_verbrauch_l, gas_verbrauch_m3, wp_strombedarf_kwh.
  cbv zeta. rewrite vollbenutzungsstunden_wp_Some.
  set (q := jahres_heizwaermebedarf (spez_bedarf e) (wohnflaeche e)).
  destruct (py_div q (eta_oel e * Defaults.heizwert_oel_kwh_l D)) as [l |] eqn:E1;
    cbn [bind].
  2:{ split; [intros _; left; exact (py_div_None_inv _ _ E1) | reflexivity]. }
  destruct (py_div q (eta_gas e * Defaults.heizwert_gas_kwh_m3 D)) as [g |] eqn:E2;
    cbn [bind].
  2:{ split; [intros _; right; left; exact (py_div_None_inv _ _ E2) | reflexivity]. }
  destruct (py_div q (jaz_wp e)) as [k |] eqn:E3; cbn [bind].
  2:{ split; [intros _; right; right; exact (py_div_None_inv _ _ E3) | reflexivity]. }
  split; [intros H; discriminate H |].
  apply py_div_inv in E1, E2, E3.
  intros [H | [H | H]]; exfalso; tauto.
Qed.

(** X12.  Within the bounds the widgets enforce, and for a living area of
    at most a million square metres, the block returns, the heat demand
    is between 60 and 220 kWh per square metre, every consumption is
    positive, every cost and emission figure is non-negative, and the
    guards are inert: the heat-pump cost is the solar share at the solar
    levelized cost plus the plain remainder at the grid price, the
    emissions are the grid share at the CO2 factor, and the utilisation
    hours are heat demand over rated power. *)
Theorem basisszenario_im_wertebereich (e : Eingaben) :
  im_wertebereich e -> wohnflaeche e <= 1000000 ->
  exists r : Ergebnis,
    basisszenario DEFAULTS e = Some r /\
    (60 * wohnflaeche e <= q_h r /\ q_h r <= 220 * wohnflaeche e) /\
    (0 < oel_l r /\ 0 < gas_m3 r /\ 0 < wp_kwh r /\ 0 <= pv_kwh r) /\
    (0 <= res_oel_kosten r /\ 0 <= res_gas_kosten r /\ 0 <= wp_kosten r) /\
    (0 < res_oel_co2 r /\ 0 < res_gas_co2 r /\ 0 <= wp_co2 r) /\
    wp_kosten r ==
      wp_kwh r * pv_deckung_wp e * lcoe_pv e
      + (wp_kwh r - wp_kwh r * pv_deckung_wp e) * strompreis_wp e /\
    wp_co2 r == wp_kwh r * (1 - pv_deckung_wp e) * co2_strom e /\
    res_vollbenutzungsstunden_wp r == q_h r / wp_kw e.
Proof.
  unfold im_wertebereich.
  intros (Hw & Hpv & Hse & Hk & Hj & Hp & Hpo & Hpg & Hsp & Hlc & Hco
          & Hb & Ho & Hg) _.
  unfold basisszenario, oel_verbrauch_l, gas_verbrauch_m3, wp_strombedarf_kwh.
  cbn [DEFAULTS Defaults.heizwert_oel_kwh_l Defaults.heizwert_gas_kwh_m3
       Defaults.co2_oel_kg_l Defaults.co2_gas_kg_m3].
  rewrite vollbenutzungsstunden_wp_Some.
  rewrite (py_div_Some _ (eta_oel e * 10.0)) by lra.
  rewrite (py_div_Some _ (eta_gas e * 10.0)) by lra.
  rewrite (py_div_Some _ (jaz_wp e)) by lra.
  cbn [bind]. eexists. split; [reflexivity |].
  cbn [q_h pv_kwh oel_l gas_m3 wp_kwh res_oel_kosten res_gas_kosten wp_kosten
       res_oel_co2 res_gas_co2 wp_co2 res_vollbenutzungsstunden_wp].
  unfold jahres_heizwaermebedarf, pv_jahreserzeugung_kwh, oel_kosten,
    gas_kosten, oel_co2, gas_co2.
  set (q := spez_bedarf e * wohnflaeche e).
  assert (Hq60 : 60 * wohnflaeche e <= q) by (unfold q; nra).
  assert (Hq220 : q <= 220 * wohnflaeche e) by (unfold q; nra).
  assert (Hq : 0 < q) by lra.
  assert (Lo : 0 < q / (eta_oel e * 10.0)) by (apply Qdiv_pos; lra).
  assert (Lg : 0 < q / (eta_gas e * 10.0)) by (apply Qdiv_pos; lra).
  assert (Lk : 0 < q / jaz_wp e) by (apply Qdiv_pos; lra).
  assert (Lk' : 0 <= q / jaz_wp e) by lra.
  assert (Hp1 : pv_deckung_wp e <= 1) by lra.
  split; [split; assumption |].
  split.
  { split; [exact Lo | split; [exact Lg | split; [exact Lk |]]].
    apply Qmult_le_0_compat; lra. }
  split.
  { split; [apply Qmult_le_0_compat; lra |].
    split; [apply Qmult_le_0_compat; lra |].
    rewrite kosten_wp_terms.
    assert (0 <= kosten_wp_pv_kwh (q / jaz_wp e) (pv_deckung_wp e) * lcoe_pv e).
    { apply Qmult_le_0_compat; [| lra].
      unfold kosten_wp_pv_kwh. apply Qmult_le_0_compat; lra. }
    assert (0 <= kosten_wp_netz_kwh (q / jaz_wp e) (pv_deckung_wp e)
                 * strompreis_wp e).
    { apply Qmult_le_0_compat; [| lra].
      unfold kosten_wp_netz_kwh. apply py_max_nonneg. }
    lra. }
  split.
  { split; [apply Qmult_lt_0_compat; [exact Lo | reflexivity] |].
    split; [apply Qmult_lt_0_compat; [exact Lg | reflexivity] |].
    unfold co2_wp. cbv zeta.
    apply Qmult_le_0_compat; [apply py_max_nonneg | lra]. }
  split.
  { rewrite (kosten_wp_inert _ _ _ _ Lk' Hp1). ring. }
  split.
  { rewrite (co2_wp_inert _ _ _ Lk' Hp1). ring. }
  rewrite (py_max_l (wp_kw e) 0.001) by lra. reflexivity.
Qed.

Lemma basisszenario_im_wertebereich_witness :
  exists r : Ergebnis,
    basisszenario DEFAULTS eingaben_vorgabe = Some r /\
    0 < oel_l r /\ 0 <= wp_kosten r /\
    res_vollbenutzungsstunden_wp r == q_h r / 13.0.
Proof.
  destruct (basisszenario_im_wertebereich eingaben_vorgabe)
    as (r & Hr & _ & (Ho & _) & (_ & _ & Hk) & _ & _ & _ & Hv).
  - vm_compute. repeat split; intros H; discriminate H.
  - vm_compute. intros H. discriminate H.
  - exists r. split; [exact Hr | split; [exact Ho | split; [exact Hk | exact Hv]]].
Defined.

(** X13.  The PV size and its specific yield have no influence on any
    consumption, cost or emission figure: they change the informational
    yield [pv_kwh] and nothing else, and cannot make the block raise. *)
Theorem pv_anlage_ohne_einfluss (D : Defaults.t) (e : Eingaben)
    (pv_kwp' spez_ertrag' : Q) :
  let e' := mkEingaben (wohnflaeche e) pv_kwp' spez_ertrag' (wp_kw e)
              (jaz_wp e) (pv_deckung_wp e) (preis_oel e) (preis_gas e)
              (strompreis_wp e) (lcoe_pv e) (co2_strom e) (spez_bedarf e)
              (eta_oel e) (eta_gas e) in
  match basisszenario D e, basisszenario D e' with
  | Some r, Some r' =>
      r' = mkErgebnis (q_h r) (pv_jahreserzeugung_kwh pv_kwp' spez_ertrag')
             (oel_l r) (res_oel_kosten r) (res_oel_co2 r)
             (gas_m3 r) (res_gas_kosten r) (res_gas_co2 r)
             (wp_kwh r) (wp_kosten r) (wp_co2 r)
             (res_vollbenutzungsstunden_wp r)
  | None, None => True
  | _, _ => False
  end.
Proof.
  intros e'. unfold basisszenario, e'.
  cbn [wohnflaeche pv_kwp spez_ertrag wp_kw jaz_wp pv_deckung_wp preis_oel
       preis_gas strompreis_wp lcoe_pv co2_strom spez_bedarf eta_oel eta_gas].
  destruct (oel_verbrauch_l _ _ _); cbn [bind]; [| exact I].
  destruct (gas_verbrauch_m3 _ _ _); cbn [bind]; [| exact I].
  destruct (wp_strombedarf_kwh _ _); cbn [bind]; [| exact I].
  destruct (vollbenutzungsstunden_wp _ _); cbn [bind]; [| exact I].
  reflexivity.
Qed.

(** ** Sensitivitaeten *)

Lemma sensitivitaeten_inv (D : Defaults.t) (e : Eingaben) (b jz : Q)
    (t : Sensitivitaet) :
  sensitivitaeten D e b jz = Some t ->
  let q := jahres_heizwaermebedarf b (wohnflaeche e) in
  let do := eta_oel e * Defaults.heizwert_oel_kwh_l D in
  let dg := eta_gas e * Defaults.heizwert_gas_kwh_m3 D in
  ~ do == 0 /\ ~ dg == 0 /\ ~ jz == 0 /\
  t = mkSensitivitaet q (q / do) (q / dg) (q / jz)
        (kosten_wp (q / jz) (pv_deckung_wp e) (strompreis_wp e) (lcoe_pv e))
        (q / do * preis_oel e) (q / dg * preis_gas e).
Proof.
  unfold sensitivitaeten, oel_verbrauch_l, gas_verbrauch_m3, wp_strombedarf_kwh.
  cbv zeta.
  set (q := jahres_heizwaermebedarf b (wohnflaeche e)).
  destruct (py_div q (eta_oel e * Defaults.heizwert_oel_kwh_l D)) as [l |] eqn:E1;
    cbn [bind]; [| intros H; discriminate H].
  destruct (py_div q (eta_gas e * Defaults.heizwert_gas_kwh_m3 D)) as [g |] eqn:E2;
    cbn [bind]; [| intros H; discriminate H].
  destruct (py_div q jz) as [k |] eqn:E3;
    cbn [bind]; [| intros H; discriminate H].
  apply py_div_inv in E1, E2, E3.
  destruct E1 as [N1 ->], E2 as [N2 ->], E3 as [N3 ->].
  intros H. injection H as <-. repeat split; assumption.
Qed.

Lemma sensitivitaeten_Some (D : Defaults.t) (e : Eingaben) (b jz : Q) :
  let q := jahres_heizwaermebedarf b (wohnflaeche e) in
  let do := eta_oel e * Defaults.heizwert_oel_kwh_l D in
  let dg := eta_gas e * Defaults.heizwert_gas_kwh_m3 D in
  ~ do == 0 -> ~ dg == 0 -> ~ jz == 0 ->
  sensitivitaeten D e b jz =
  Some (mkSensitivitaet q (q / do) (q / dg) (q / jz)
        (kosten_wp (q / jz) (pv_deckung_wp e) (strompreis_wp e) (lcoe_pv e))
        (q / do * preis_oel e) (q / dg * preis_gas e)).
Proof.
  intros q do dg N1 N2 N3.
  unfold sensitivitaeten, oel_verbrauch_l, gas_verbrauch_m3, wp_strombedarf_kwh.
  cbv zeta. fold q. fold do. fold dg.
  rewrite (py_div_Some q do N1), (py_div_Some q dg N2), (py_div_Some q jz N3).
  reflexivity.
Qed.

(** X14.  With both sensitivity sliders at the values of the sidebar the
    sensitivity table shows the costs of the comparison table: whenever
    the main block returns, the sensitivity block returns the same heat
    demand, consumptions and costs. *)
Theorem sensitivitaeten_at_sidebar_values (D : Defaults.t) (e : Eingaben)
    (r : Ergebnis) :
  basisszenario D e = Some r ->
  exists t : Sensitivitaet,
    sensitivitaeten D e (spez_bedarf e) (jaz_wp e) = Some t /\
    q_h_sens t = q_h r /\
    oel_l_sens t = oel_l r /\ gas_m3_sens t = gas_m3 r /\
    wp_kwh_sens t = wp_kwh r /\
    oel_kosten_sens t = res_oel_kosten r /\
    gas_kosten_sens t = res_gas_kosten r /\
    wp_kosten_sens t = wp_kosten r.
Proof.
  unfold basisszenario, sensitivitaeten. cbv zeta.
  destruct (oel_verbrauch_l _ _ _) as [l |]; cbn [bind];
    [| intros H; discriminate H].
  destruct (gas_verbrauch_m3 _ _ _) as [g |]; cbn [bind];
    [| intros H; discriminate H].
  destruct (wp_strombedarf_kwh _ _) as [k |]; cbn [bind];
    [| intros H; discriminate H].
  destruct (vollbenutzungsstunden_wp _ _) as [v |]; cbn [bind];
    [| intros H; discriminate H].
  intros H. injection H as <-.
  eexists. split; [reflexivity |].
  cbn. repeat split.
Qed.

Lemma sensitivitaeten_at_sidebar_values_witness :
  exists t : Sensitivitaet,
    sensitivitaeten DEFAULTS eingaben_vorgabe 110 3.2 = Some t /\
    wp_kosten_sens t == 2798.4275.
Proof.
  destruct (basisszenario DEFAULTS eingaben_vorgabe) as [r |] eqn:E;
    [| vm_compute in E; discriminate E].
  destruct (sensitivitaeten_at_sidebar_values DEFAULTS eingaben_vorgabe r E)
    as (t & Ht & _ & _ & _ & _ & _ & _ & Hk).
  exists t. split; [exact Ht |].
  rewrite Hk.
  vm_compute in E. injection E as <-. reflexivity.
Defined.

(** X15.  Within the bounds the widgets enforce (living area at most a
    million square metres) the sensitivity block returns for every
    position of its two sliders, and raising the heat-demand slider never
    lowers the heat demand, the oil and gas consumption, the electricity
    demand of the heat pump, or the oil and the gas cost. *)
Theorem sensitivitaeten_monotone_bedarf (e : Eingaben) (b b' jz : Q) :
  im_wertebereich e -> wohnflaeche e <= 1000000 ->
  60 <= b -> b <= b' -> b' <= 220 -> 2 <= jz -> jz <= 5 ->
  exists t t' : Sensitivitaet,
    sensitivitaeten DEFAULTS e b jz = Some t /\
    sensitivitaeten DEFAULTS e b' jz = Some t' /\
    (0 < q_h_sens t /\ q_h_sens t <= q_h_sens t') /\
    (oel_l_sens t <= oel_l_sens t' /\ gas_m3_sens t <= gas_m3_sens t' /\
     wp_kwh_sens t <= wp_kwh_sens t') /\
    (oel_kosten_sens t <= oel_kosten_sens t' /\
     gas_kosten_sens t <= gas_kosten_sens t').
Proof.
  unfold im_wertebereich.
  intros (Hw & _ & _ & _ & _ & _ & Hpo & Hpg & _ & _ & _ & _ & Ho & Hg) _
         Hb Hbb Hb' Hj _.
  assert (No : ~ eta_oel e * Defaults.heizwert_oel_kwh_l DEFAULTS == 0)
    by (cbn [DEFAULTS Defaults.heizwert_oel_kwh_l]; lra).
  assert (Ng : ~ eta_gas e * Defaults.heizwert_gas_kwh_m3 DEFAULTS == 0)
    by (cbn [DEFAULTS Defaults.heizwert_gas_kwh_m3]; lra).
  assert (Nj : ~ jz == 0) by lra.
  eexists. eexists.
  split; [apply sensitivitaeten_Some; assumption |].
  split; [apply sensitivitaeten_Some; assumption |].
  cbn [q_h_sens oel_l_sens gas_m3_sens wp_kwh_sens oel_kosten_sens
       gas_kosten_sens].
  cbn [DEFAULTS Defaults.heizwert_oel_kwh_l Defaults.heizwert_gas_kwh_m3] in *.
  unfold jahres_heizwaermebedarf.
  set (w := wohnflaeche e) in *.
  assert (Q0 : 0 < b * w) by nra.
  assert (Q1 : b * w <= b' * w) by (apply Qmult_le_compat_r; lra).
  assert (D : forall d, 0 < d -> b * w / d <= b' * w / d).
  { intros d Hd. apply Qmult_le_compat_r; [exact Q1 |].
    apply Qlt_le_weak, Qinv_lt_0_compat. exact Hd. }
  assert (Do : b * w / (eta_oel e * 10.0) <= b' * w / (eta_oel e * 10.0))
    by (apply D; lra).
  assert (Dg : b * w / (eta_gas e * 10.0) <= b' * w / (eta_gas e * 10.0))
    by (apply D; lra).
  split; [split; assumption |].
  split; [split; [exact Do | split; [exact Dg | apply D; lra]] |].
  split; apply Qmult_le_compat_r; assumption.
Qed.

Lemma sensitivitaeten_monotone_bedarf_witness :
  exists t t' : Sensitivitaet,
    sensitivitaeten DEFAULTS eingaben_vorgabe 60 3.2 = Some t /\
    sensitivitaeten DEFAULTS eingaben_vorgabe 180 3.2 = Some t' /\
    oel_kosten_sens t <= oel_kosten_sens t' /\
    gas_kosten_sens t <= gas_kosten_sens t'.
Proof.
  destruct (sensitivitaeten_monotone_bedarf eingaben_vorgabe 60 180 3.2)
    as (t & t' & H1 & H2 & _ & _ & Ho & Hg);
    try (vm_compute; repeat split; intros H; discriminate H).
  exists t, t'.
  split; [exact H1 | split; [exact H2 | split; [exact Ho | exact Hg]]].
Defined.

(** X16.  The JAZ slider of the sensitivity block moves the heat pump only:
    oil and gas consumption and cost do not depend on it. *)
Theorem sensitivitaeten_jaz_only_wp (D : Defaults.t) (e : Eingaben)
    (b jz jz' : Q) (t t' : Sensitivitaet) :
  sensitivitaeten D e b jz = Some t ->
  sensitivitaeten D e b jz' = Some t' ->
  q_h_sens t' = q_h_sens t /\
  oel_l_sens t' = oel_l_sens t /\ gas_m3_sens t' = gas_m3_sens t /\
  oel_kosten_sens t' = oel_kosten_sens t /\
  gas_kosten_sens t' = gas_kosten_sens t.
Proof.
  intros Ht Ht'.
  destruct (sensitivitaeten_inv D e b jz t Ht) as (_ & _ & _ & ->).
  destruct (sensitivitaeten_inv D e b jz' t' Ht') as (_ & _ & _ & ->).
  cbn. repeat split.
Qed.

Lemma sensitivitaeten_jaz_only_wp_witness :
  exists t t' : Sensitivitaet,
    sensitivitaeten DEFAULTS eingaben_vorgabe 110 3.2 = Some t /\
    sensitivitaeten DEFAULTS eingaben_vorgabe 110 4.5 = Some t' /\
    oel_kosten_sens t' = oel_kosten_sens t /\
    gas_kosten_sens t' = gas_kosten_sens t.
Proof.
  destruct (sensitivitaeten DEFAULTS eingaben_vorgabe 110 3.2) as [t |] eqn:E;
    [| vm_compute in E; discriminate E].
  destruct (sensitivitaeten DEFAULTS eingaben_vorgabe 110 4.5) as [t' |] eqn:E';
    [| vm_compute in E'; discriminate E'].
  destruct (sensitivitaeten_jaz_only_wp DEFAULTS eingaben_vorgabe 110 3.2 4.5
              t t' E E') as (_ & _ & _ & Ho & Hg).
  exists t, t'.
  split; [reflexivity | split; [reflexivity | split; [exact Ho | exact Hg]]].
Defined.

(** ** Formatting *)

Local Open Scope string_scope.

Lemma string_map_app (f : ascii -> ascii) (s t : string) :
  string_map f (s ++ t) = string_map f s ++ string_map f t.
Proof.
  induction s as [| c s IH]; simpl; [reflexivity | rewrite IH; reflexivity].
Qed.

Lemma string_map_length (f : ascii -> ascii) (s : string) :
  String.length (string_map f s) = String.length s.
Proof.
  induction s as [| c s IH]; simpl; [reflexivity | rewrite IH; reflexivity].
Qed.

Lemma string_forallb_app (p : ascii -> bool) (s t : string) :
  string_forallb p (s ++ t) = string_forallb p s && string_forallb p t.
Proof.
  induction s as [| c s IH]; simpl; [reflexivity |].
  rewrite IH, andb_assoc. reflexivity.
Qed.

Lemma string_forallb_map (p : ascii -> bool) (f : ascii -> ascii) (s : string) :
  (forall c, p (f c) = true) -> string_forallb p (string_map f s) = true.
Proof.
  intros H. induction s as [| c s IH]; simpl; [reflexivity |].
  rewrite H, IH. reflexivity.
Qed.

Lemma string_forallb_map_weaken (p q : ascii -> bool) (f : ascii -> ascii)
    (s : string) :
  (forall c, p c = true -> q (f c) = true) ->
  string_forallb p s = true -> string_forallb q (string_map f s) = true.
Proof.
  intros H. induction s as [| c s IH]; simpl; [reflexivity |].
  intros Hs. apply andb_true_iff in Hs. destruct Hs as [Hc Hs].
  rewrite (H c Hc), (IH Hs). reflexivity.
Qed.

Lemma deutsch_cases (c : ascii) :
  (c = ","%char /\ deutsch c = "."%char) \/
  (c = "."%char /\ deutsch c = ","%char) \/
  (c = " "%char /\ deutsch c = "."%char) \/
  (c <> ","%char /\ c <> "."%char /\ c <> " "%char /\ deutsch c = c).
Proof.
  unfold deutsch.
  destruct (Ascii.eqb c ",") eqn:E1.
  { apply Ascii.eqb_eq in E1. left. split; [exact E1 | reflexivity]. }
  destruct (Ascii.eqb c ".") eqn:E2.
  { apply Ascii.eqb_eq in E2. right. left. split; [exact E2 | reflexivity]. }
  destruct (Ascii.eqb c " ") eqn:E3.
  { apply Ascii.eqb_eq in E3. right. right. left. split; [exact E3 | reflexivity]. }
  apply Ascii.eqb_neq in E1, E2, E3.
  right. right. right. repeat split; assumption.
Qed.

Lemma deutsch_never_blank (c : ascii) :
  negb (Ascii.eqb (deutsch c) " ") = true.
Proof.
  destruct (deutsch_cases c) as [[_ ->] | [[_ ->] | [[_ ->] | (_ & _ & N & ->)]]];
    try reflexivity.
  apply Ascii.eqb_neq in N. rewrite N. reflexivity.
Qed.

Lemma replace_chain_map (s : string) :
  py_replace " " "." (py_replace "." "," (py_replace "," " " s))
  = string_map deutsch s.
Proof.
  induction s as [| c s IH]; simpl; [reflexivity |].
  rewrite IH. f_equal.
  destruct (deutsch_cases c) as [[-> ->] | [[-> ->] | [[-> ->] | (N1 & N2 & N3 & ->)]]];
    try reflexivity.
  apply Ascii.eqb_neq in N1, N2, N3.
  rewrite N1, N2, N3. reflexivity.
Qed.

Lemma fmt_unit_shape (unit : string) (x : Q) (nd : nat) :
  string_map deutsch unit = unit ->
  fmt_unit unit x nd = string_map deutsch (py_format_f x nd) ++ "." ++ unit.
Proof.
  intros Hu. unfold fmt_unit.
  rewrite replace_chain_map, !string_map_app, Hu. reflexivity.
Qed.

Lemma fmt_unit_no_blank (unit : string) (x : Q) (nd : nat) :
  string_forallb (fun c => negb (Ascii.eqb c " ")) (fmt_unit unit x nd) = true.
Proof.
  unfold fmt_unit. rewrite replace_chain_map.
  apply string_forallb_map. exact deutsch_never_blank.
Qed.

(** X17.  The three replacements in a row act as one pass over the string that
    turns every comma into a dot, every dot into a comma and every blank
    into a dot, and keeps the length.  The blank is meant as a temporary
    stand-in for the comma, but the blanks already in the string are
    caught by the last replacement as well. *)
Theorem replace_chain_is_deutsch (s : string) :
  py_replace " " "." (py_replace "." "," (py_replace "," " " s))
    = string_map deutsch s /\
  String.length (py_replace " " "." (py_replace "." "," (py_replace "," " " s)))
    = String.length s /\
  string_forallb (fun c => negb (Ascii.eqb c " "))
    (py_replace " " "." (py_replace "." "," (py_replace "," " " s))) = true.
Proof.
  rewrite replace_chain_map. split; [reflexivity | split].
  - apply string_map_length.
  - apply string_forallb_map. exact deutsch_never_blank.
Qed.

(** X18.  [euro], [kwh_fmt], [liter_fmt] and [m3_fmt] turn the blank between
    the number and the unit into a dot: the result is the number in
    German notation, a dot, and the unit, and it contains no blank, for
    every number and every number of decimals. *)
Theorem fmt_blank_becomes_dot (x : Q) (nd : nat) :
  let num := string_map deutsch (py_format_f x nd) in
  (euro x nd = num ++ "." ++ unit_euro /\
   kwh_fmt x nd = num ++ "." ++ unit_kwh /\
   liter_fmt x nd = num ++ "." ++ unit_liter /\
   m3_fmt x nd = num ++ "." ++ unit_m3) /\
  (string_forallb (fun c => negb (Ascii.eqb c " ")) (euro x nd) = true /\
   string_forallb (fun c => negb (Ascii.eqb c " ")) (kwh_fmt x nd) = true /\
   string_forallb (fun c => negb (Ascii.eqb c " ")) (liter_fmt x nd) = true /\
   string_forallb (fun c => negb (Ascii.eqb c " ")) (m3_fmt x nd) = true).
Proof.
  intros num. unfold euro, kwh_fmt, liter_fmt, m3_fmt, num. split.
  - repeat split; apply fmt_unit_shape; reflexivity.
  - repeat split; apply fmt_unit_no_blank.
Qed.

(** *** The number part without decimals *)

Lemma digits_string_of_uint (d : Decimal.uint) :
  string_forallb is_digit (NilEmpty.string_of_uint d) = true.
Proof. induction d; simpl; try rewrite IHd; reflexivity. Qed.

Lemma digits_NilZero (d : Decimal.uint) :
  string_forallb is_digit (NilZero.string_of_uint d) = true.
Proof.
  destruct d; try exact (digits_string_of_uint _). reflexivity.
Qed.

Lemma digits_zeros (n : nat) : string_forallb is_digit (zeros n) = true.
Proof. induction n; simpl; [reflexivity | exact IHn]. Qed.

Lemma string_forallb_substring (p : ascii -> bool) (s : string) (n m : nat) :
  string_forallb p s = true -> string_forallb p (String.substring n m s) = true.
Proof.
  revert n m. induction s as [| c s IH]; intros n m Hs.
  - destruct n, m; reflexivity.
  - simpl in Hs. apply andb_true_iff in Hs. destruct Hs as [Hc Hs].
    destruct n as [| n]; [destruct m as [| m] |]; simpl.
    + reflexivity.
    + rewrite Hc. apply IH. exact Hs.
    + apply IH. exact Hs.
Qed.

Lemma group_thousands_chars (s : string) :
  string_forallb is_digit s = true ->
  string_forallb digit_or_comma_or_minus (group_thousands s) = true.
Proof.
  induction s as [| c s IH]; [reflexivity |].
  cbn [group_thousands string_forallb].
  intros Hs. apply andb_true_iff in Hs. destruct Hs as [Hc Hs].
  assert (Hd : digit_or_comma_or_minus c = true).
  { unfold digit_or_comma_or_minus. rewrite Hc. reflexivity. }
  rewrite Hd. cbn [andb].
  destruct ((0 <? String.length s)%nat && (String.length s mod 3 =? 0)%nat).
  - cbn [string_forallb]. apply IH. exact Hs.
  - apply IH. exact Hs.
Qed.

Lemma py_format_f_0_chars (x : Q) :
  string_forallb digit_or_comma_or_minus (py_format_f x 0) = true.
Proof.
  unfold py_format_f.
  rewrite !string_forallb_app. apply andb_true_iff. split.
  - destruct (Qlt_le_dec x 0); reflexivity.
  - apply andb_true_iff. split; [| reflexivity].
    apply group_thousands_chars. apply string_forallb_substring.
    rewrite string_forallb_app, digits_zeros, digits_NilZero. reflexivity.
Qed.

Lemma deutsch_number_char (c : ascii) :
  digit_or_comma_or_minus c = true -> digit_or_dot_or_minus (deutsch c) = true.
Proof.
  unfold digit_or_comma_or_minus, digit_or_dot_or_minus. intros H.
  destruct (deutsch_cases c) as [[-> ->] | [[-> _] | [[-> _] | (N & _ & _ & ->)]]];
    try reflexivity; try (vm_compute in H; discriminate H).
  apply orb_true_iff in H. destruct H as [H | H].
  - apply orb_true_iff in H. destruct H as [H | H].
    + rewrite H. reflexivity.
    + apply Ascii.eqb_eq in H. contradiction.
  - rewrite H. apply orb_true_r.
Qed.

(** X19.  Called without decimals, as every call of the script does, the four
    functions return digits, dots and possibly a leading minus sign,
    followed by a dot and the unit: there is no decimal comma, and the dot
    before the unit looks like one more thousands separator. *)
Theorem fmt_without_decimals (x : Q) :
  exists num : string,
    string_forallb digit_or_dot_or_minus num = true /\
    euro x 0 = num ++ "." ++ unit_euro /\
    kwh_fmt x 0 = num ++ "." ++ unit_kwh /\
    liter_fmt x 0 = num ++ "." ++ unit_liter /\
    m3_fmt x 0 = num ++ "." ++ unit_m3.
Proof.
  exists (string_map deutsch (py_format_f x 0)). split.
  - apply (string_forallb_map_weaken digit_or_comma_or_minus).
    + exact deutsch_number_char.
    + apply py_format_f_0_chars.
  - unfold euro, kwh_fmt, liter_fmt, m3_fmt.
    repeat split; apply fmt_unit_shape; reflexivity.
Qed.

(** The table and the KPI row of the start page: oil consumption, heat
    demand and the three annual costs as the functions print them. *)
Lemma fmt_vorgabe :
  kwh_fmt 38599 0 = "38.599.kWh" /\
  liter_fmt (38599 / 8.5) 0 = "4.541.L" /\
  m3_fmt (38599 / 9.5) 0 = "4.063." ++ unit_m3 /\
  euro (38599 / 8.5 * 1.05) 0 = "4.768." ++ unit_euro /\
  euro 2798.4275 0 = "2.798." ++ unit_euro /\
  euro 2798.4275 2 = "2.798,43." ++ unit_euro /\
  euro (-1234.5) 0 = "-1.234." ++ unit_euro.
Proof. vm_compute. repeat split. Qed.

Local Close Scope string_scope.

(** ** Evaluation on doubles *)

Local Open Scope float_scope.

(** The example scenarios as the interpreter computes them.  [110 * 350.9]
    is the double 38599.0 although 350.9 is not a double; the electricity
    demand 38599 / 3.2 is the double 12062.1875; cost, oil figures and
    utilisation hours agree with the documented values to the printed
    digits. *)
Lemma Binary64_scenarios :
  Binary64.jahres_heizwaermebedarf 110 350.9 = 38599 /\
  Binary64.wp_strombedarf_kwh 38599 3.2 = Some 12062.1875 /\
  Binary64.nahe (Binary64.kosten_wp 12062.1875 0.20 0.26 0.12) 2798.43 0.005
    = true /\
  (exists oel_l,
     Binary64.oel_verbrauch_l 38599 10.0 0.85 = Some oel_l /\
     Binary64.nahe oel_l 4541.06 0.005 = true /\
     Binary64.nahe (oel_l * 1.05) 4768.11 0.005 = true /\
     Binary64.nahe (oel_l * 2.65) 12033.8 0.05 = true) /\
  (exists vbh,
     Binary64.vollbenutzungsstunden_wp 38599 13.0 = Some vbh /\
     Binary64.nahe vbh 2969.2 0.05 = true).
Proof.
  split; [vm_compute; reflexivity |].
  split; [vm_compute; reflexivity |].
  split; [vm_compute; reflexivity |].
  split; eexists; (split; [vm_compute; reflexivity |]);
    repeat split; vm_compute; reflexivity.
Qed.

(** *** Where rounding shows

    Inputs on which the doubles do not follow the exact model. *)



(** C6 (as stated, refuted).  The heat demand is not additive in the
    specific demand: 60 + 105 is 165, but on 350.9 m2 the demand at 165 is
    one rounding step below the sum of the demands at 60 and at 105.  Nor
    is it homogeneous: the demand at 3 * 60 is not three times the demand
    at 60, and doubling a specific demand of 1e308 overflows. *)
Lemma Binary64_heizwaermebedarf_not_additive :
  60 + 105 = 165 /\
  Binary64.jahres_heizwaermebedarf 165 350.9 = 57898.499999999993 /\
  Binary64.jahres_heizwaermebedarf 60 350.9
    + Binary64.jahres_heizwaermebedarf 105 350.9 = 57898.5 /\
  PrimFloat.eqb (Binary64.jahres_heizwaermebedarf (60 + 105) 350.9)
                (Binary64.jahres_heizwaermebedarf 60 350.9
                 + Binary64.jahres_heizwaermebedarf 105 350.9) = false /\
  3 * 60 = 180 /\
  PrimFloat.eqb (Binary64.jahres_heizwaermebedarf (3 * 60) 350.9)
                (3 * Binary64.jahres_heizwaermebedarf 60 350.9) = false /\
  PrimFloat.eqb (Binary64.jahres_heizwaermebedarf (2 * 1e308) 0.1)
                (2 * Binary64.jahres_heizwaermebedarf 1e308 0.1) = false.
Proof. vm_compute. repeat split. Qed.

(** C7 (as stated, refuted).  A positive efficiency and a positive
    heating value do not keep the division from raising: the product of
    2^-600 with itself underflows to zero. *)
Lemma Binary64_verbrauch_raises_on_underflow :
  PrimFloat.ltb 0 0x1p-600 = true /\
  Binary64.oel_verbrauch_l 1 0x1p-600 0x1p-600 = None /\
  Binary64.gas_verbrauch_m3 1 0x1p-600 0x1p-600 = None.
Proof. vm_compute. repeat split. Qed.

(** C10 (as stated, refuted).  A coverage above 1 need not cost more than
    coverage 1: at the double next above 1, with the default demand and a
    solar levelized cost of 0.19, the cost is the cost at coverage 1. *)
Lemma Binary64_pv_deck_above_one_not_strict :
  let s := 12062.1875 in
  let p := 1.0000000000000002 in
  PrimFloat.ltb 1 p = true /\
  PrimFloat.ltb 0 s = true /\ PrimFloat.ltb 0 0.19 = true /\
  Binary64.kosten_wp s 1 0.26 0.19 = 2291.8156250000002 /\
  Binary64.kosten_wp s p 0.26 0.19 = 2291.8156250000002 /\
  PrimFloat.ltb (Binary64.kosten_wp s 1 0.26 0.19)
                (Binary64.kosten_wp s p 0.26 0.19) = false.
Proof. vm_compute. repeat split. Qed.

(** With equal tariffs the cost is the same at every coverage in exact
    arithmetic; on doubles it moves by a rounding step, here upwards
    between the slider positions 5 and 10, and the cost at coverage 1 is
    above the cost at 5 %. *)
Lemma Binary64_kosten_wp_rounding_at_equal_tariffs :
  let s := 12062.1875 in
  let p1 := Binary64Sidebar.pv_deckung_wp 5 in
  let p2 := Binary64Sidebar.pv_deckung_wp 10 in
  Binary64.kosten_wp s p1 0.26 0.26 = 3136.1687499999998 /\
  Binary64.kosten_wp s p2 0.26 0.26 = 3136.1687500000003 /\
  Binary64.kosten_wp s 1 0.26 0.26 = 3136.1687500000003 /\
  PrimFloat.ltb (Binary64.kosten_wp s p1 0.26 0.26)
                (Binary64.kosten_wp s p2 0.26 0.26) = true /\
  PrimFloat.ltb (Binary64.kosten_wp s p1 0.26 0.26)
                (Binary64.kosten_wp s 1 0.26 0.26) = true.
Proof. vm_compute. repeat split. Qed.

(** The efficiency 0.85 and the double next above it give the same oil
    consumption. *)
Lemma Binary64_oel_verbrauch_equal_at_adjacent_eta :
  PrimFloat.ltb 0.85 0.85000000000000009 = true /\
  Binary64.oel_verbrauch_l 38599 10.0 0.85 = Some 4541.0588235294117 /\
  Binary64.oel_verbrauch_l 38599 10.0 0.85000000000000009
    = Some 4541.0588235294117.
Proof. vm_compute. repeat split. Qed.

(** Two neighbouring demands at coverage 0.91 and solar levelized cost 0:
    the larger demand has the smaller grid quantity, and so the smaller
    cost. *)
Lemma Binary64_kosten_wp_not_monotone_in_demand :
  let s1 := 18004.395604395602 in
  let s2 := 18004.395604395606 in
  PrimFloat.ltb s1 s2 = true /\
  PrimFloat.ltb (Binary64.kosten_wp s2 0.91 0.26 0)
                (Binary64.kosten_wp s1 0.91 0.26 0) = true.
Proof. vm_compute. repeat split. Qed.

(** *** The rounded model against the doubles

    [rnd64] gives the double a literal of the source denotes, and module
    [Gerundet] with [rnd64] computes the very doubles of module [Binary64]
    on the inputs above. *)
Local Open Scope Q_scope.

Lemma rnd64_on_literals :
  rnd64 0.45 == Q_of_float 0.45%float /\
  rnd64 0.12 == Q_of_float 0.12%float /\
  rnd64 12062.1875 == 12062.1875 /\
  rnd64 (1 # 3) == Q_of_float (1 / 3)%float /\
  rnd64 (- (2 # 3)) == Q_of_float (-2 / 3)%float /\
  rnd64 1e-320 == Q_of_float 1e-320%float.
Proof. vm_compute. repeat split. Qed.

(** Ties go to the even neighbour, and below 2^-1022 the spacing stays
    2^-1074. *)
Lemma rnd64_ties_and_subnormals :
  rnd64 (inject_Z (2 ^ 53 + 1)) == inject_Z (2 ^ 53) /\
  rnd64 (inject_Z (2 ^ 53 + 3)) == inject_Z (2 ^ 53 + 4) /\
  rnd64 (- inject_Z (2 ^ 53 + 1)) == - inject_Z (2 ^ 53) /\
  rnd64 (1 # 2 ^ 1075) == 0 /\
  rnd64 (3 # 2 ^ 1075) == 1 # 2 ^ 1073 /\
  rnd64 (2 ^ (-1074)) == Q_of_float 5e-324%float.
Proof. vm_compute. repeat split. Qed.

Lemma Gerundet_rnd64_reproduces_Binary64 :
  let s := 12062.1875%float in
  let p := Binary64Sidebar.pv_deckung_wp 45 in
  Gerundet.kosten_wp_netz_kwh rnd64 (Q_of_float s) (Q_of_float p)
    == Q_of_float (Binary64.py_max (s - s * p) 0)%float /\
  Gerundet.co2_wp_netz_kwh rnd64 (Q_of_float s) (Q_of_float p)
    == Q_of_float (Binary64.py_max (s * (1 - p)) 0)%float /\
  Gerundet.spec_gridPortion rnd64 (Q_of_float s) (Q_of_float p)
    == Q_of_float (Binary64Spec.spec_gridPortion s p) /\
  Gerundet.kosten_wp rnd64 (Q_of_float s) (Q_of_float p)
      (Q_of_float 0.25%float) (Q_of_float 0.12%float)
    == Q_of_float (Binary64.kosten_wp s p 0.25 0.12) /\
  Gerundet.spec_HeatPumpCost rnd64 (Q_of_float s) (Q_of_float p)
      (Q_of_float 0.25%float) (Q_of_float 0.12%float)
    == Q_of_float (Binary64Spec.spec_HeatPumpCost s p 0.25 0.12) /\
  Gerundet.co2_wp rnd64 (Q_of_float s) (Q_of_float p) (Q_of_float 0.35%float)
    == Q_of_float (Binary64.co2_wp s p 0.35) /\
  ~ Gerundet.kosten_wp_netz_kwh rnd64 (Q_of_float s) (Q_of_float p)
    == Gerundet.co2_wp_netz_kwh rnd64 (Q_of_float s) (Q_of_float p).
Proof. vm_compute. repeat split. intros H. discriminate H. Qed.

Local Close Scope Q_scope.

(** X20.  The percentage shown in the fourth KPI is the position of the
    coverage slider, for each of its thirteen positions 0, 5, ..., 60:
    dividing by 100.0, multiplying by 100 and truncating gives the
    position back, and the slider starts at 20.  This rests on the step
    of 5: the position 29 would be shown as 28. *)
Theorem kpi4_shows_slider_position :
  List.Forall
    (fun k => Binary64Sidebar.kpi4 (Binary64Sidebar.pv_deckung_wp k) = Some k)
    Binary64Sidebar.slider_positionen /\
  Binary64Sidebar.slider_positionen
    = (0 :: 5 :: 10 :: 15 :: 20 :: 25 :: 30 :: 35 :: 40 :: 45 :: 50 :: 55
         :: 60 :: nil)%Z /\
  Binary64Sidebar.slider_vorgabe = Some 20%Z /\
  Binary64Sidebar.kpi4 (Binary64Sidebar.pv_deckung_wp 29) = Some 28%Z.
Proof.
  split; [| split; [reflexivity | split; vm_compute; reflexivity]].
  unfold Binary64Sidebar.slider_positionen. cbn [List.map List.seq].
  repeat (apply List.Forall_cons; [vm_compute; reflexivity |]).
  apply List.Forall_nil.
Qed.
